(** * VisionID: the detection proxy and the capture-and-render client

    A shallow embedding of [face-detection-app/backend/server.js] (the Express
    proxy in front of the Azure Face API) and of the two React clients
    ([App.jsx], the plain one and the MUI one), followed by the properties of
    the image-submission and result-rendering protocol.

    Conventions.
    - JavaScript values that travel as JSON are the inductive [JS.value];
      [JUndefined] stands for an absent property.  JSON numbers are kept as
      integers: the code only tests them for zero and passes them on.
    - Strings are [string], read as the UTF-8 bytes of the text; a [Buffer]
      is a [list byte].
    - What the Node or browser runtime supplies (base64 decoding, the HTTP
      client, the JPEG encoder) is a [Variable] of the enclosing section.
    - The handler runs in a small monad that threads the log of outbound calls
      and propagates thrown errors to the [catch] block. *)

From Stdlib Require Import ZArith QArith String Ascii List Bool Lia.
From stdpp Require Import base gmap strings list pretty.
Import ListNotations.

Local Open Scope Z_scope.
Local Open Scope string_scope.

(* ===================================================================== *)
(** ** JavaScript values and the few built-ins the code relies on        *)
(* ===================================================================== *)

Module JS.

#[warnings="-register-all"]
Inductive value : Type :=
| JUndefined
| JNull
| JBool (b : bool)
| JNum (n : Z)
| JStr (s : string)
| JArr (items : list value)
| JObj (fields : list (string * value)).

(** ToBoolean: what [if (v)], [!v] and [v || w] look at. *)
Definition truthy (v : value) : bool :=
  match v with
  | JUndefined | JNull => false
  | JBool b => b
  | JNum n => negb (Z.eqb n 0)
  | JStr s => negb (String.eqb s "")
  | JArr _ | JObj _ => true
  end.

(** [a || b] *)
Definition or_else (a b : value) : value := if truthy a then a else b.

Fixpoint assoc (k : string) (fields : list (string * value)) : value :=
  match fields with
  | [] => JUndefined
  | (k', v) :: rest => if String.eqb k k' then v else assoc k rest
  end.

(** [v?.k] for a property name that no prototype defines ([error],
    [message], [code]): only an object literal can have it. The field list
    of an object names each property once. *)
Definition get (v : value) (k : string) : value :=
  match v with
  | JObj fields => assoc k fields
  | _ => JUndefined
  end.

(** [a === 'literal'] *)
Definition strict_eq_str (a : value) (lit : string) : bool :=
  match a with
  | JStr s => String.eqb s lit
  | _ => false
  end.

(** Errors as the [catch] block sees them: [error.message] and, for an error
    raised by the HTTP client on a non-2xx answer, [error.response]. *)
Record HttpReply := { reply_status : Z; reply_data : value }.
Record Error := { message : string; response : option HttpReply }.

Definition TypeError (msg : string) : Error :=
  {| message := msg; response := None |}.

Inductive completion (A : Type) : Type :=
| Normal (a : A)
| Throw (e : Error).
Arguments Normal {A} a.
Arguments Throw {A} e.

(** *** String methods *)

(** The text that follows the first occurrence of [sep] in [s]. *)
Fixpoint after_first (sep s : string) : option string :=
  if String.prefix sep s
  then Some (String.substring (String.length sep)
                              (String.length s - String.length sep) s)
  else match s with
       | EmptyString => None
       | String _ s' => after_first sep s'
       end.

(** The text that precedes the first occurrence of [sep] in [s]
    (all of [s] when there is none). *)
Fixpoint before_first (sep s : string) : string :=
  if String.prefix sep s then EmptyString
  else match s with
       | EmptyString => EmptyString
       | String c s' => String c (before_first sep s')
       end.

(** [s.includes(sep)] *)
Definition str_includes (sep s : string) : bool :=
  match after_first sep s with Some _ => true | None => false end.

(** [s.split(sep)[1]], for a non-empty [sep]. *)
Definition str_split_1 (sep s : string) : value :=
  match after_first sep s with
  | Some rest => JStr (before_first sep rest)
  | None => JUndefined
  end.

(** [v.includes(lit)] on an arbitrary JSON value: a string searches for a
    substring, an array for an element, anything else has no such method. *)
Definition includes (v : value) (lit : string) : completion bool :=
  match v with
  | JStr s => Normal (str_includes lit s)
  | JArr items => Normal (existsb (fun x => strict_eq_str x lit) items)
  | _ => Throw (TypeError "imageData.includes is not a function")
  end.

(** [v.split(lit)[1]] *)
Definition split_1 (v : value) (lit : string) : completion value :=
  match v with
  | JStr s => Normal (str_split_1 lit s)
  | _ => Throw (TypeError "imageData.split is not a function")
  end.

(** [v.length], as read inside a template literal. *)
Definition length_of (v : value) : completion unit :=
  match v with
  | JUndefined => Throw (TypeError "Cannot read properties of undefined (reading 'length')")
  | JNull => Throw (TypeError "Cannot read properties of null (reading 'length')")
  | _ => Normal tt
  end.

End JS.

(* ===================================================================== *)
(** ** A lenient base64 decoder, for the worked examples                 *)
(* ===================================================================== *)

(** Node's decoder for [Buffer.from(s, 'base64')] accepts both alphabets,
    skips characters outside them, and stops at the first [=]. The properties
    of the proxy are stated for an arbitrary decoder; this one is used where
    a concrete request is evaluated. *)
Module Node.

Definition unbase64 (c : ascii) : option N :=
  let n := N_of_ascii c in
  if ((65 <=? n) && (n <=? 90))%N then Some (n - 65)%N
  else if ((97 <=? n) && (n <=? 122))%N then Some (n - 71)%N
  else if ((48 <=? n) && (n <=? 57))%N then Some (n + 4)%N
  else if ((n =? 43) || (n =? 45))%N then Some 62%N
  else if ((n =? 47) || (n =? 95))%N then Some 63%N
  else None.

Fixpoint sextets (s : string) : list N :=
  match s with
  | EmptyString => []
  | String c rest =>
      if Ascii.eqb c "=" then []
      else match unbase64 c with
           | Some v => v :: sextets rest
           | None => sextets rest
           end
  end.

Definition byte_of (n : N) : Byte.byte :=
  match Byte.of_N (n mod 256) with
  | Some b => b
  | None => Byte.x00
  end.

Fixpoint pack (l : list N) : list Byte.byte :=
  match l with
  | a :: b :: c :: d :: rest =>
      byte_of (a * 4 + b / 16)
      :: byte_of ((b mod 16) * 16 + c / 4)
      :: byte_of ((c mod 4) * 64 + d)
      :: pack rest
  | [a; b; c] =>
      [byte_of (a * 4 + b / 16); byte_of ((b mod 16) * 16 + c / 4)]
  | [a; b] => [byte_of (a * 4 + b / 16)]
  | _ => []
  end%N.

Definition base64_decode (s : string) : list Byte.byte := pack (sextets s).

(** A stand-in for [Buffer.from(array)] in the worked examples, none of
    which sends an array: one byte per element, exact for integers (taken
    modulo 256), booleans and [null]. The coercion Node applies to other
    elements (numeric strings, nested arrays) is not reproduced. *)
Definition bytes_of_array (items : list JS.value) : list Byte.byte :=
  map (fun v => match v with
                | JS.JNum n => byte_of (Z.to_N (n mod 256))
                | JS.JBool true => Byte.x01
                | _ => Byte.x00
                end) items.

(** [n] copies of the character [c]. *)
Fixpoint repeat_char (c : ascii) (n : nat) : string :=
  match n with
  | O => EmptyString
  | S n' => String c (repeat_char c n')
  end.

End Node.

(* ===================================================================== *)
(** ** The detection proxy ([backend/server.js])                         *)
(* ===================================================================== *)

Module Server.
Import JS.

(** [process.env] *)
Definition Env := gmap string string.

Definition env_value (env : Env) (name : string) : value :=
  match env !! name with
  | Some s => JStr s
  | None => JUndefined
  end.

(** The two module-level constants, once the startup check has passed. *)
Record Config := { AZURE_ENDPOINT : string; AZURE_KEY : string }.

Inductive Process : Type :=
| Exited (code : Z)
| Listening (port : value) (consts : Config).

(** Module initialisation, from [require('dotenv').config()] down to
    [app.listen(PORT, ...)]. *)
Definition startup (env : Env) : Process :=
  let PORT := or_else (env_value env "PORT") (JNum 3001) in
  let endpoint := env_value env "AZURE_FACE_ENDPOINT" in
  let key := env_value env "AZURE_FACE_KEY" in
  if negb (truthy endpoint) || negb (truthy key) then Exited 1
  else
    match endpoint, key with
    | JStr e, JStr k => Listening PORT {| AZURE_ENDPOINT := e; AZURE_KEY := k |}
    | _, _ => Exited 1
    end.

(** *** Requests and responses *)

Record Body := { imageUrl : value; imageData : value }.

Record Response := { status : Z; json : value }.

Inductive Payload : Type :=
| JsonData (v : value)
| RawData (buffer : list Byte.byte).

(** The argument of [axios(...)]. *)
Record RequestConfig := {
  method : string;
  url : string;
  content_type : string;
  subscription_key : string;
  params : list (string * string);
  data : Payload;
  unbounded_body : bool
}.

Inductive AxiosResult : Type :=
| Resolved (response_data : value)
| Rejected (e : Error).

(** [AZURE_ENDPOINT.replace(/\/$/, '')] *)
Fixpoint strip_trailing_slash (s : string) : string :=
  match s with
  | EmptyString => EmptyString
  | String c EmptyString => if Ascii.eqb c "/" then EmptyString else s
  | String c rest => String c (strip_trailing_slash rest)
  end.

Definition detect_params : list (string * string) :=
  [("returnFaceId", "false");
   ("returnFaceLandmarks", "true");
   ("returnRecognitionModel", "false")].

Definition MAX_BYTES : Z := 6 * 1024 * 1024.
Definition MIN_BYTES : Z := 1024.

Definition bad_request (msg : string) : Response :=
  {| status := 400; json := JObj [("error", JStr msg)] |}.

(** The suggestion chain of the [catch] block. *)
Definition suggestion_for (errorCode : value) : string :=
  if strict_eq_str errorCode "InvalidImageUrl" then
    "The image URL is invalid or inaccessible. Please check the URL."
  else if strict_eq_str errorCode "InvalidImageFormat" then
    "The image format is not supported. Use JPG, PNG, GIF, or BMP."
  else if strict_eq_str errorCode "InvalidImageSize" then
    "The image size is invalid. Image must be between 1KB and 6MB."
  else if strict_eq_str errorCode "InvalidRequest" then
    "The request format is invalid. This might be an API version issue."
  else if strict_eq_str errorCode "Unauthorized" then
    "Invalid API key. Please check your Azure subscription key."
  else "".

(** [error.response?.data] *)
Definition error_data (error : Error) : value :=
  match response error with
  | Some r => reply_data r
  | None => JUndefined
  end.

(** [error.response?.status || 500] *)
Definition error_status (error : Error) : Z :=
  match response error with
  | Some r => if Z.eqb (reply_status r) 0 then 500 else reply_status r
  | None => 500
  end.

Definition error_message (error : Error) : value :=
  or_else (get (get (error_data error) "error") "message")
    (or_else (get (error_data error) "message")
       (or_else (JStr (message error)) (JStr "Face detection failed"))).

Definition error_code (error : Error) : value :=
  or_else (get (get (error_data error) "error") "code") (JStr "Unknown").

(** The [catch (error) { ... }] block of [/api/detect-faces]. *)
Definition on_error (error : Error) : Response :=
  let errorMessage := error_message error in
  let errorCode := error_code error in
  let suggestion := suggestion_for errorCode in
  {| status := error_status error;
     json := JObj [("error", errorMessage);
                   ("code", errorCode);
                   ("suggestion", JStr suggestion);
                   ("details", error_data error)] |}.

(** *** The handler monad: a log of outbound calls, and thrown errors *)

Definition M (A : Type) : Type :=
  list RequestConfig -> completion A * list RequestConfig.

#[local] Instance M_ret : MRet M := fun A a log => (Normal a, log).

#[local] Instance M_bind : MBind M := fun A B k m log =>
  match m log with
  | (Normal a, log') => k a log'
  | (Throw e, log') => (Throw e, log')
  end.

(** A runtime built-in that may throw. *)
Definition lift {A : Type} (c : completion A) : M A := fun log => (c, log).

(** [try { m } catch (error) { h error }], with a handler that cannot throw. *)
Definition try_catch {A : Type} (m : M A) (h : Error -> A)
  (log : list RequestConfig) : A * list RequestConfig :=
  match m log with
  | (Normal a, log') => (a, log')
  | (Throw e, log') => (h e, log')
  end.

Section Handler.

(** [Buffer.from(text, 'base64')] on a string. *)
Variable base64_decode : string -> list Byte.byte.
(** [Buffer.from(items, ...)] on an array: one byte per element. *)
Variable bytes_of_array : list value -> list Byte.byte.
(** What the face-detection service answers to a request. *)
Variable service : RequestConfig -> AxiosResult.
(** The constants fixed at startup. *)
Variable consts : Config.

Definition Buffer_from (v : value) : completion (list Byte.byte) :=
  match v with
  | JStr s => Normal (base64_decode s)
  | JArr items => Normal (bytes_of_array items)
  | _ => Throw (TypeError "The first argument must be of type string or an instance of Buffer, ArrayBuffer, or Array or an Array-like Object.")
  end.

(** [await axios(requestConfig)] *)
Definition axios (requestConfig : RequestConfig) : M value := fun log =>
  (match service requestConfig with
   | Resolved d => Normal d
   | Rejected e => Throw e
   end, (log ++ [requestConfig])%list).

(** The [try] block of [app.post('/api/detect-faces', ...)].  An early
    [return res.status(400).json(...)] inside the inline branch is the [inl]
    of the intermediate result. *)
Definition detect_faces_try (body : Body) : M Response :=
  let imageUrl := imageUrl body in
  let imageData := imageData body in
  if negb (truthy imageUrl) && negb (truthy imageData) then
    mret (bad_request "Either imageUrl or imageData is required")
  else
    let endpoint := strip_trailing_slash (AZURE_ENDPOINT consts) in
    let azureUrl := endpoint +:+ "/face/v1.0/detect" in
    let params := detect_params in
    prepared ←
      (if truthy imageUrl then
         mret (inr {| method := "POST";
                      url := azureUrl;
                      content_type := "application/json";
                      subscription_key := AZURE_KEY consts;
                      params := params;
                      data := JsonData (JObj [("url", imageUrl)]);
                      unbounded_body := false |})
       else
         has_prefix ← lift (includes imageData "base64,");
         base64Data ← (if (has_prefix : bool)
                        then lift (split_1 imageData "base64,")
                        else mret imageData);
         imageBuffer ← lift (Buffer_from base64Data);
         if (Z.of_nat (length imageBuffer) >? MAX_BYTES)%Z then
           mret (inl (bad_request "Image too large. Maximum size is 6MB."))
         else if (Z.of_nat (length imageBuffer) <? MIN_BYTES)%Z then
           mret (inl (bad_request "Image too small or corrupted."))
         else
           mret (inr {| method := "POST";
                        url := azureUrl;
                        content_type := "application/octet-stream";
                        subscription_key := AZURE_KEY consts;
                        params := params;
                        data := RawData imageBuffer;
                        unbounded_body := true |}));
    match prepared with
    | inl early => mret early
    | inr requestConfig =>
        response_data ← axios requestConfig;
        _ ← lift (length_of response_data);
        mret {| status := 200; json := response_data |}
    end.

(** One request to [POST /api/detect-faces]: the response sent and the calls
    made to the service, in order. *)
Definition detect_faces (body : Body) : Response * list RequestConfig :=
  try_catch (detect_faces_try body) on_error [].

Definition reply (body : Body) : Response := fst (detect_faces body).
Definition calls (body : Body) : list RequestConfig := snd (detect_faces body).

(** The two outbound request shapes, named for the statements below. *)
Definition azure_url : string :=
  strip_trailing_slash (AZURE_ENDPOINT consts) +:+ "/face/v1.0/detect".

Definition url_request (imageUrl : value) : RequestConfig :=
  {| method := "POST"; url := azure_url;
     content_type := "application/json";
     subscription_key := AZURE_KEY consts;
     params := detect_params;
     data := JsonData (JObj [("url", imageUrl)]);
     unbounded_body := false |}.

Definition binary_request (imageBuffer : list Byte.byte) : RequestConfig :=
  {| method := "POST"; url := azure_url;
     content_type := "application/octet-stream";
     subscription_key := AZURE_KEY consts;
     params := detect_params;
     data := RawData imageBuffer;
     unbounded_body := true |}.

(** The text handed to the decoder for an inline string: what follows the
    first [base64,] marker, up to the next one if there is one. *)
Definition inline_text (imageData : string) : string :=
  if str_includes "base64," imageData
  then before_first "base64,"
         (default EmptyString (after_first "base64," imageData))
  else imageData.

Definition decoded_length (imageData : string) : Z :=
  Z.of_nat (length (base64_decode (inline_text imageData))).

(** What the handler sends back once the service has answered a call. *)
Definition after_call (requestConfig : RequestConfig) : Response :=
  match service requestConfig with
  | Resolved d =>
      match length_of d with
      | Normal _ => {| status := 200; json := d |}
      | Throw e => on_error e
      end
  | Rejected e => on_error e
  end.

End Handler.

(** The fixed set of suggestions, as a table from service error code to
    text. *)
Definition suggestions : gmap string string :=
  list_to_map
    [("InvalidImageUrl",
      "The image URL is invalid or inaccessible. Please check the URL.");
     ("InvalidImageFormat",
      "The image format is not supported. Use JPG, PNG, GIF, or BMP.");
     ("InvalidImageSize",
      "The image size is invalid. Image must be between 1KB and 6MB.");
     ("InvalidRequest",
      "The request format is invalid. This might be an API version issue.");
     ("Unauthorized",
      "Invalid API key. Please check your Azure subscription key.")].

(** The first truthy value of a list, or the last resort. *)
Fixpoint first_truthy (candidates : list value) (last : value) : value :=
  match candidates with
  | [] => last
  | v :: rest => if truthy v then v else first_truthy rest last
  end.

(** *** The process: boot once, then serve *)

Section Lifecycle.

Variable base64_decode : string -> list Byte.byte.
Variable bytes_of_array : list value -> list Byte.byte.
Variable service : RequestConfig -> AxiosResult.

Inductive Phase : Type :=
| NotStarted
| Started (p : Process).

(** The environment can change under a running process; the module-level
    constants cannot. *)
Inductive Event : Type :=
| Boot
| SetEnv (name val : string)
| UnsetEnv (name : string)
| PostDetectFaces (body : Body).

Record System := {
  env : Env;
  phase : Phase;
  served : list Response;
  outbound : list RequestConfig
}.

Definition initial (e : Env) : System :=
  {| env := e; phase := NotStarted; served := []; outbound := [] |}.

(** Requests to POST /api/detect-faces are taken one at a time, each
    together with the answer of the service to its call. The two GET routes
    keep no state of their own; they are in [Routes]. *)
Definition step (sys : System) (ev : Event) : System :=
  match ev with
  | SetEnv name val =>
      {| env := <[name := val]> (env sys); phase := phase sys;
         served := served sys; outbound := outbound sys |}
  | UnsetEnv name =>
      {| env := delete name (env sys); phase := phase sys;
         served := served sys; outbound := outbound sys |}
  | Boot =>
      match phase sys with
      | NotStarted =>
          {| env := env sys; phase := Started (startup (env sys));
             served := served sys; outbound := outbound sys |}
      | Started _ => sys
      end
  | PostDetectFaces body =>
      match phase sys with
      | Started (Listening _ consts) =>
          let '(r, cs) :=
            detect_faces base64_decode bytes_of_array service consts body in
          {| env := env sys; phase := phase sys;
             served := (served sys ++ [r])%list;
             outbound := (outbound sys ++ cs)%list |}
      | _ => sys
      end
  end.

Definition run (sys : System) (evs : list Event) : System :=
  fold_left step evs sys.

End Lifecycle.

End Server.

(* ===================================================================== *)
(** ** The 2D canvas, as a list of drawing calls                         *)
(* ===================================================================== *)

(** The render step only issues calls on a 2D context; what matters to the
    properties is which calls, with which arguments, in which order. *)
Module Canvas.

Inductive Call : Type :=
| SetWidth (w : Q)
| SetHeight (h : Q)
| SetStyleWidth (px : Q)
| SetStyleHeight (px : Q)
| SetTransform (a b c d e f : Q)
| ClearRect (x y w h : Q)
| DrawImage (src : string) (dx dy dw dh : Q)
| StrokeStyle (color : string)
| LineWidth (w : Q)
| StrokeRect (x y w h : Q)
| FillStyle (color : string)
| Font (f : string)
| FillText (text : string) (x y : Q)
| BeginPath
| ArcFull (x y r : Q)
| Fill.

(** The rectangles stroked by a list of calls, in order. *)
Fixpoint rectangles (calls : list Call) : list (Q * Q * Q * Q) :=
  match calls with
  | [] => []
  | StrokeRect x y w h :: rest => (x, y, w, h) :: rectangles rest
  | _ :: rest => rectangles rest
  end.

(** The text labels written by a list of calls, in order. *)
Fixpoint labels (calls : list Call) : list string :=
  match calls with
  | [] => []
  | FillText text _ _ :: rest => text :: labels rest
  | _ :: rest => labels rest
  end.

(** The images painted by a list of calls, in order. *)
Fixpoint images (calls : list Call) : list string :=
  match calls with
  | [] => []
  | DrawImage src _ _ _ _ :: rest => src :: images rest
  | _ :: rest => images rest
  end.

(** Truncation toward zero: what [parseInt] keeps of a CSS length and what
    an assignment to [canvas.width] keeps of a number. *)
Definition trunc (q : Q) : Q := inject_Z (Z.quot (Qnum q) (Zpos (Qden q))).

Definition Qmax' (a b : Q) : Q := if Qle_bool a b then b else a.
Definition Qmin' (a b : Q) : Q := if Qle_bool a b then a else b.

End Canvas.

(* ===================================================================== *)
(** ** The 2D canvas, as a bitmap                                        *)
(* ===================================================================== *)

(** For the capture step the pixels matter. A context carries an axis-aligned
    transform [x' = a*x + e], [y' = d*y + f]; [drawImage] samples the source
    at the centre of each device pixel. *)
Module Bitmap.

Definition Pixel := N.
Definition transparent : Pixel := 0%N.

Record Transform := { ta : Z; td : Z; te : Z; tf : Z }.
Definition identity : Transform := {| ta := 1; td := 1; te := 0; tf := 0 |}.

(** A source of pixels with its intrinsic size: a video frame. *)
Record Frame := {
  videoWidth : Z;
  videoHeight : Z;
  at_xy : Z -> Z -> Pixel
}.

Record Canvas2D := {
  width : Z;
  height : Z;
  pixel : Z -> Z -> Pixel;
  transform : Transform;
  saved : list Transform
}.

(** Assigning [canvas.width] or [canvas.height] clears the bitmap and resets
    the context to its default state. *)
Definition set_width (w : Z) (c : Canvas2D) : Canvas2D :=
  {| width := w; height := height c; pixel := fun _ _ => transparent;
     transform := identity; saved := [] |}.

Definition set_height (h : Z) (c : Canvas2D) : Canvas2D :=
  {| width := width c; height := h; pixel := fun _ _ => transparent;
     transform := identity; saved := [] |}.

(** [ctx.scale(sx, sy)] *)
Definition scale (sx sy : Z) (c : Canvas2D) : Canvas2D :=
  let t := transform c in
  {| width := width c; height := height c; pixel := pixel c;
     transform := {| ta := ta t * sx; td := td t * sy; te := te t; tf := tf t |};
     saved := saved c |}.

(** [ctx.save()] and [ctx.restore()] *)
Definition save (c : Canvas2D) : Canvas2D :=
  {| width := width c; height := height c; pixel := pixel c;
     transform := transform c; saved := transform c :: saved c |}.

Definition restore (c : Canvas2D) : Canvas2D :=
  match saved c with
  | [] => c
  | t :: rest =>
      {| width := width c; height := height c; pixel := pixel c;
         transform := t; saved := rest |}
  end.

(** The source coordinate seen from the centre of device coordinate [X],
    along one axis: [floor (((X + 1/2 - e) / a - d0) * ssize / dsize)]. *)
Definition sample (a e d0 dsize ssize X : Z) : Z :=
  ((2 * X + 1 - 2 * e - 2 * a * d0) * ssize) / (2 * a * dsize).

(** [ctx.drawImage(src, dx, dy, dw, dh)] *)
Definition drawImage (src : Frame) (dx dy dw dh : Z) (c : Canvas2D) : Canvas2D :=
  let t := transform c in
  {| width := width c; height := height c;
     pixel := fun X Y =>
       let i := sample (ta t) (te t) dx dw (videoWidth src) X in
       let j := sample (td t) (tf t) dy dh (videoHeight src) Y in
       if ((0 <=? i) && (i <? videoWidth src) &&
           (0 <=? j) && (j <? videoHeight src))%Z
          && negb (ta t * dw =? 0)%Z && negb (td t * dh =? 0)%Z
       then at_xy src i j
       else pixel c X Y;
     transform := t; saved := saved c |}.

(** The left-right flip of a frame. *)
Definition mirror (src : Frame) : Z -> Z -> Pixel :=
  fun X Y => at_xy src (videoWidth src - 1 - X) Y.

End Bitmap.

(* ===================================================================== *)
(** ** The capture-and-render client ([App.jsx])                         *)
(* ===================================================================== *)

Module Client.
Import Canvas.

(** *** Detection results as the client reads them *)

Record Rect := { left : Q; top : Q; rect_width : Q; rect_height : Q }.
Record Point := { px : Q; py : Q }.
Record Landmarks := {
  pupilLeft : option Point;
  pupilRight : option Point;
  noseTip : option Point;
  mouthLeft : option Point;
  mouthRight : option Point
}.
Record Face := {
  faceRectangle : option Rect;
  faceLandmarks : option Landmarks
}.

Definition no_landmarks : Landmarks :=
  {| pupilLeft := None; pupilRight := None; noseTip := None;
     mouthLeft := None; mouthRight := None |}.

(** The [<img ref={imageRef}>] element. *)
Record Img := {
  src : string;
  img_width : Q;
  img_height : Q;
  naturalWidth : Q;
  naturalHeight : Q;
  complete : bool
}.

(** [`Face ${index + 1}`] *)
Definition face_label (index : nat) : string := "Face " +:+ pretty (index + 1)%nat.

(** The coordinates a face record reports, if it has a rectangle. *)
Definition reported (face : Face) : option (Q * Q * Q * Q) :=
  match faceRectangle face with
  | Some rect => Some (left rect, top rect, rect_width rect, rect_height rect)
  | None => None
  end.

(** How a detection request ends, seen from the client: the array in
    [response.data], or an error with [err.response?.data?.error] and
    [err.message]. *)
Inductive DetectResult : Type :=
| Detected (data : list Face)
| Failed (server_error : option string) (err_message : string).

Inductive Origin : Type := FromUrl | FromFile | FromCamera.

(** *** Component state and the browser around it *)

(** A [MediaStream], as the list of its tracks. *)
Definition Stream := list nat.

Record State := {
  imageUrl : string;
  imagePreview : option string;
  faces : list Face;
  loading : bool;
  error : option string;
  cameraActive : bool;
  cameraStream : option Stream
}.

Definition initial_state : State :=
  {| imageUrl := ""; imagePreview := None; faces := []; loading := false;
     error := None; cameraActive := false; cameraStream := None |}.

Definition setImageUrl (v : string) (s : State) : State :=
  {| imageUrl := v; imagePreview := imagePreview s; faces := faces s;
     loading := loading s; error := error s; cameraActive := cameraActive s;
     cameraStream := cameraStream s |}.
Definition setImagePreview (v : option string) (s : State) : State :=
  {| imageUrl := imageUrl s; imagePreview := v; faces := faces s;
     loading := loading s; error := error s; cameraActive := cameraActive s;
     cameraStream := cameraStream s |}.
Definition setFaces (v : list Face) (s : State) : State :=
  {| imageUrl := imageUrl s; imagePreview := imagePreview s; faces := v;
     loading := loading s; error := error s; cameraActive := cameraActive s;
     cameraStream := cameraStream s |}.
Definition setLoading (v : bool) (s : State) : State :=
  {| imageUrl := imageUrl s; imagePreview := imagePreview s; faces := faces s;
     loading := v; error := error s; cameraActive := cameraActive s;
     cameraStream := cameraStream s |}.
Definition setError (v : option string) (s : State) : State :=
  {| imageUrl := imageUrl s; imagePreview := imagePreview s; faces := faces s;
     loading := loading s; error := v; cameraActive := cameraActive s;
     cameraStream := cameraStream s |}.
Definition setCameraActive (v : bool) (s : State) : State :=
  {| imageUrl := imageUrl s; imagePreview := imagePreview s; faces := faces s;
     loading := loading s; error := error s; cameraActive := v;
     cameraStream := cameraStream s |}.
Definition setCameraStream (v : option Stream) (s : State) : State :=
  {| imageUrl := imageUrl s; imagePreview := imagePreview s; faces := faces s;
     loading := loading s; error := error s; cameraActive := cameraActive s;
     cameraStream := v |}.

(** The device side: which tracks are live, what the [<video>] element
    shows, and the hidden canvas used for capture. *)
Record Browser := {
  live : gset nat;
  srcObject : option Stream;
  captureCanvas : Bitmap.Canvas2D
}.

(** [track.stop()] *)
Definition stop_track (b : Browser) (track : nat) : Browser :=
  {| live := live b ∖ {[track]}; srcObject := srcObject b;
     captureCanvas := captureCanvas b |}.

(** [stream.getTracks().forEach(track => track.stop())] *)
Definition stop_all (stream : Stream) (b : Browser) : Browser :=
  fold_left stop_track stream b.

Definition set_srcObject (v : option Stream) (b : Browser) : Browser :=
  {| live := live b; srcObject := v; captureCanvas := captureCanvas b |}.

Definition set_captureCanvas (c : Bitmap.Canvas2D) (b : Browser) : Browser :=
  {| live := live b; srcObject := srcObject b; captureCanvas := c |}.

(** [navigator.mediaDevices.getUserMedia] hands over a stream of live tracks. *)
Definition grant (stream : Stream) (b : Browser) : Browser :=
  {| live := live b ∪ list_to_set stream; srcObject := srcObject b;
     captureCanvas := captureCanvas b |}.

(** How [startCamera] ends: a stream, or an error with its [name] and
    [message]. *)
Inductive CameraOutcome : Type :=
| Granted (stream : Stream)
| Refused (name msg : string).

(** The white space and line terminators that [trim()] removes. Those of
    one byte: U+0009 to U+000D and U+0020. *)
Definition is_space (c : ascii) : bool :=
  let n := N_of_ascii c in ((9 <=? n) && (n <=? 13) || (n =? 32))%N.

(** Of two bytes: U+00A0. *)
Definition is_space2 (c1 c2 : ascii) : bool :=
  ((N_of_ascii c1 =? 194) && (N_of_ascii c2 =? 160))%N.

(** Of three bytes: U+1680, U+2000 to U+200A, U+2028, U+2029, U+202F,
    U+205F, U+3000 and U+FEFF. *)
Definition is_space3 (c1 c2 c3 : ascii) : bool :=
  let a := N_of_ascii c1 in
  let b := N_of_ascii c2 in
  let c := N_of_ascii c3 in
  ((a =? 225) && (b =? 154) && (c =? 128)
   || (a =? 226) && (b =? 128)
      && ((128 <=? c) && (c <=? 138) || (c =? 168) || (c =? 169) || (c =? 175))
   || (a =? 226) && (b =? 129) && (c =? 159)
   || (a =? 227) && (b =? 128) && (c =? 128)
   || (a =? 239) && (b =? 187) && (c =? 191))%N.

(** [!s.trim()]: the text holds nothing but white space. *)
Fixpoint blank (s : string) : bool :=
  match s with
  | EmptyString => true
  | String c1 rest =>
      if is_space c1 then blank rest
      else
        match rest with
        | EmptyString => false
        | String c2 rest2 =>
            if is_space2 c1 c2 then blank rest2
            else
              match rest2 with
              | EmptyString => false
              | String c3 rest3 =>
                  if is_space3 c1 c2 c3 then blank rest3 else false
              end
        end
  end.

(** What happens to the component. [StartCamera outcome] is the click taken
    together with the answer of [getUserMedia], and [UploadFile] the choice
    of a file together with the reader's [onload]; what arrives between a
    request and its answer is not part of the model. *)
Inductive Event : Type :=
| TypeUrl (text : string)
| SubmitUrl
| UploadFile (dataUrl : option string)
| StartCamera (outcome : CameraOutcome)
| ClickStop
| ClickReset
| ClickCapture (video : option Bitmap.Frame)
| DetectDone (origin : Origin) (result : DetectResult)
| Unmount.

Record App := { ui : State; browser : Browser; mounted : bool }.

End Client.

(** *** The plain client *)

Module Classic.
Import Canvas Client.

(** [value || fallback] on an optional string. *)
Definition or_default (v : option string) (fallback : string) : string :=
  match v with
  | Some s => if String.eqb s "" then fallback else s
  | None => fallback
  end.

Section Component.

(** [canvas.toDataURL('image/jpeg', 0.95)] *)
Variable toDataURL : Bitmap.Canvas2D -> string.

(** [stopCamera], as closed over the state [seen] by the render that created
    it, acting on the current state and browser. *)
Definition stopCamera (seen : State) (video_mounted : bool)
  (now : State * Browser) : State * Browser :=
  match cameraStream seen with
  | Some stream =>
      let '(s, b) := now in
      let b := stop_all stream b in
      let s := setCameraActive false (setCameraStream None s) in
      (s, if video_mounted then set_srcObject None b else b)
  | None => now
  end.

(** The drawing part of [capturePhoto]. *)
Definition capture_frame (video : Bitmap.Frame) (canvas : Bitmap.Canvas2D)
  : Bitmap.Canvas2D :=
  let canvas := Bitmap.set_width (Bitmap.videoWidth video) canvas in
  let canvas := Bitmap.set_height (Bitmap.videoHeight video) canvas in
  let ctx := Bitmap.scale (-1) 1 canvas in
  Bitmap.drawImage video (- Bitmap.width ctx) 0
    (Bitmap.width ctx) (Bitmap.height ctx) ctx.

(** [capturePhoto], up to the [await]. *)
Definition capturePhoto (seen : State) (video : option Bitmap.Frame)
  (now : State * Browser) : State * Browser :=
  match video with
  | None => now
  | Some v =>
      let '(s, b) := now in
      let s := setError None (setLoading true s) in
      let canvas := capture_frame v (captureCanvas b) in
      let imageData := toDataURL canvas in
      let s := setImagePreview (Some imageData) s in
      stopCamera seen true (s, set_captureCanvas canvas b)
  end.

(** [handleUrlSubmit], up to the [await]. *)
Definition handleUrlSubmit (seen : State) (now : State * Browser)
  : State * Browser :=
  if blank (imageUrl seen) then now
  else
    let '(s, b) := now in
    let s := setImagePreview (Some (imageUrl seen))
               (setLoading true (setError None s)) in
    stopCamera seen (cameraActive seen) (s, b).

(** [handleFileUpload] with the reader's [onload], up to the [await]. *)
Definition handleFileUpload (seen : State) (file : option string)
  (now : State * Browser) : State * Browser :=
  match file with
  | None => now
  | Some imageData =>
      let '(s, b) := stopCamera seen (cameraActive seen) now in
      (setImagePreview (Some imageData) (setLoading true (setError None s)), b)
  end.

Definition camera_error_message (name msg : string) : string :=
  "Unable to access camera. " +:+
  (if String.eqb name "NotAllowedError" || String.eqb name "PermissionDeniedError"
   then "Please allow camera permissions in your browser."
   else if String.eqb name "NotFoundError" || String.eqb name "DevicesNotFoundError"
   then "No camera found on this device."
   else if String.eqb name "NotReadableError" || String.eqb name "TrackStartError"
   then "Camera is already in use by another application."
   else msg).

(** [startCamera], with the deferred [video.srcObject = stream]. *)
Definition startCamera (outcome : CameraOutcome) (now : State * Browser)
  : State * Browser :=
  let '(s, b) := now in
  let s := setLoading true (setError None s) in
  match outcome with
  | Granted stream =>
      let s := setFaces [] (setImagePreview None
                 (setCameraActive true (setCameraStream (Some stream) s))) in
      (setLoading false s, set_srcObject (Some stream) (grant stream b))
  | Refused name msg =>
      let s := setCameraActive false
                 (setError (Some (camera_error_message name msg)) s) in
      (setLoading false s, b)
  end.

Definition no_faces_message (origin : Origin) : string :=
  match origin with
  | FromCamera => "No faces detected in the photo"
  | FromUrl | FromFile => "No faces detected in the image"
  end.

(** What follows the [await axios.post(...)] in the three submit handlers. *)
Definition on_detect_done (origin : Origin) (result : DetectResult)
  (s : State) : State :=
  match result with
  | Detected data =>
      let s := setFaces data s in
      let s := if (length data =? 0)%nat
               then setError (Some (no_faces_message origin)) s else s in
      setLoading false s
  | Failed server_error _ =>
      let s := setError (Some (or_default server_error "Failed to detect faces")) s in
      setLoading false (setFaces [] s)
  end.

(** Event handlers are those of the latest render and see the latest state;
    the cleanup registered by [useEffect(() => () => stopCamera(), [])] is
    the one created by the first render and sees the initial state. *)
Definition step (app : App) (ev : Event) : App :=
  if negb (mounted app) then app
  else
    let seen := ui app in
    let now := (ui app, browser app) in
    let continue (r : State * Browser) :=
      {| ui := fst r; browser := snd r; mounted := true |} in
    match ev with
    | TypeUrl text => continue (setImageUrl text (ui app), browser app)
    | SubmitUrl => continue (handleUrlSubmit seen now)
    | UploadFile file => continue (handleFileUpload seen file now)
    | StartCamera outcome => continue (startCamera outcome now)
    | ClickStop => continue (stopCamera seen (cameraActive seen) now)
    | ClickReset => app
    | ClickCapture video => continue (capturePhoto seen video now)
    | DetectDone origin result =>
        continue (on_detect_done origin result (ui app), browser app)
    | Unmount =>
        let r := stopCamera initial_state false now in
        {| ui := fst r; browser := snd r; mounted := false |}
    end.

Definition run (app : App) (evs : list Event) : App := fold_left step evs app.

End Component.

(** *** Rendering *)

Definition draw_point (point : option Point) : list Call :=
  match point with
  | Some p => [BeginPath; ArcFull (px p) (py p) 3; Fill]
  | None => []
  end.

(** The body of [faces.forEach((face, index) => ...)]: the calls issued, and
    whether the body ran to its end. *)
Definition draw_face (index : nat) (face : Face)
  : list Call * JS.completion unit :=
  match faceRectangle face with
  | None =>
      ([StrokeStyle "#00ff00"; LineWidth 4],
       JS.Throw (JS.TypeError "Cannot read properties of undefined (reading 'left')"))
  | Some rect =>
      ([StrokeStyle "#00ff00"; LineWidth 4;
        StrokeRect (left rect) (top rect) (rect_width rect) (rect_height rect);
        FillStyle "#00ff00"; Font "bold 20px Arial";
        FillText (face_label index) (left rect) (top rect - 10)]
       ++ match faceLandmarks face with
          | Some landmarks =>
              FillStyle "#00ff00"
              :: draw_point (pupilLeft landmarks)
              ++ draw_point (pupilRight landmarks)
              ++ draw_point (noseTip landmarks)
              ++ draw_point (mouthLeft landmarks)
              ++ draw_point (mouthRight landmarks)
          | None => []
          end,
       JS.Normal tt)%list
  end.

Fixpoint forEach (index : nat) (faces : list Face)
  : list Call * JS.completion unit :=
  match faces with
  | [] => ([], JS.Normal tt)
  | face :: rest =>
      match draw_face index face with
      | (calls, JS.Normal _) =>
          let '(more, outcome) := forEach (S index) rest in
          ((calls ++ more)%list, outcome)
      | (calls, JS.Throw e) => (calls, JS.Throw e)
      end
  end.

(** [drawFaceBoxes], the [onLoad] handler of the preview image. *)
Definition drawFaceBoxes (img : option Img) (canvas : bool) (faces : list Face)
  : list Call * JS.completion unit :=
  match img with
  | None => ([], JS.Normal tt)
  | Some img =>
      if negb canvas || (length faces =? 0)%nat then ([], JS.Normal tt)
      else
        let '(calls, outcome) := forEach 0 faces in
        ((SetWidth (img_width img) :: SetHeight (img_height img)
          :: DrawImage (src img) 0 0 (img_width img) (img_height img)
          :: calls)%list, outcome)
  end.

(** The banner [{error && <div className="error-message">...}]. *)
Definition notice (s : State) : option string :=
  match error s with
  | Some e => if String.eqb e "" then None else Some e
  | None => None
  end.

End Classic.

(** *** The MUI client *)

Module Mui.
Import Canvas Client.

Section Component.

(** [canvas.toDataURL('image/jpeg', 0.95)] *)
Variable toDataURL : Bitmap.Canvas2D -> string.

(** [a || b] on numbers. *)
Definition nonzero_or (a b : Z) : Z := if Z.eqb a 0 then b else a.

Definition stopCamera (seen : State) (video_mounted : bool)
  (now : State * Browser) : State * Browser :=
  let '(s, b) := now in
  let '(s, b) :=
    match cameraStream seen with
    | Some stream => (setCameraStream None s, stop_all stream b)
    | None => (s, b)
    end in
  let s := setCameraActive false s in
  (s, if video_mounted then set_srcObject None b else b).

(** The first lines of [apiPostDetect], before the [await]. *)
Definition apiPostDetect_begin (s : State) : State :=
  setLoading true (setError None s).

(** The rest of [apiPostDetect], once the request has ended. *)
Definition apiPostDetect_end (result : DetectResult) (s : State) : State :=
  match result with
  | Detected data =>
      let s := setFaces data s in
      let s := if (length data =? 0)%nat
               then setError (Some "No faces detected") s else s in
      setLoading false s
  | Failed server_error err_message =>
      let msg := Classic.or_default server_error
                   (Classic.or_default (Some err_message) "Detection failed") in
      setLoading false (setFaces [] (setError (Some msg) s))
  end.

Definition handleUrlSubmit (seen : State) (now : State * Browser)
  : State * Browser :=
  if blank (imageUrl seen) then now
  else
    let '(s, b) := stopCamera seen true now in
    (apiPostDetect_begin (setImagePreview (Some (imageUrl seen)) s), b).

Definition handleFileUpload (seen : State) (file : option string)
  (now : State * Browser) : State * Browser :=
  match file with
  | None => now
  | Some data =>
      let '(s, b) := stopCamera seen true now in
      (apiPostDetect_begin (setImagePreview (Some data) (setError None s)), b)
  end.

Definition startCamera (outcome : CameraOutcome) (now : State * Browser)
  : State * Browser :=
  let '(s, b) := now in
  let s := setLoading true (setError None s) in
  match outcome with
  | Granted stream =>
      let s := setCameraActive true (setCameraStream (Some stream) s) in
      let b := set_srcObject (Some stream) (grant stream b) in
      (setLoading false (setFaces [] (setImagePreview None s)), b)
  | Refused name msg =>
      let message := Classic.or_default (Some msg) "Unable to access camera" in
      let message := if String.eqb name "NotAllowedError"
                     then "Camera permission denied" else message in
      (setLoading false (setError (Some message) s), b)
  end.

(** The drawing part of [capturePhoto]. *)
Definition capture_frame (video : Bitmap.Frame) (canvas : Bitmap.Canvas2D)
  : Bitmap.Canvas2D :=
  let canvas := Bitmap.set_width (nonzero_or (Bitmap.videoWidth video) 1280) canvas in
  let canvas := Bitmap.set_height (nonzero_or (Bitmap.videoHeight video) 720) canvas in
  let ctx := Bitmap.save canvas in
  let ctx := Bitmap.scale (-1) 1 ctx in
  let ctx := Bitmap.drawImage video (- Bitmap.width ctx) 0
               (Bitmap.width ctx) (Bitmap.height ctx) ctx in
  Bitmap.restore ctx.

(** [capturePhoto], up to the [await] inside [apiPostDetect]. *)
Definition capturePhoto (seen : State) (video : option Bitmap.Frame)
  (now : State * Browser) : State * Browser :=
  match video with
  | None => now
  | Some v =>
      let '(s, b) := now in
      let s := setError None (setLoading true s) in
      let canvas := capture_frame v (captureCanvas b) in
      let imageData := toDataURL canvas in
      let s := setImagePreview (Some imageData) s in
      let '(s, b) := stopCamera seen true (s, set_captureCanvas canvas b) in
      (apiPostDetect_begin s, b)
  end.

(** The Reset button. *)
Definition reset (seen : State) (now : State * Browser) : State * Browser :=
  let '(s, b) := now in
  stopCamera seen true (setError None (setFaces [] (setImagePreview None s)), b).

(** As in the plain client, the unmount cleanup is the [stopCamera] of the
    first render. *)
Definition step (app : App) (ev : Event) : App :=
  if negb (mounted app) then app
  else
    let seen := ui app in
    let now := (ui app, browser app) in
    let continue (r : State * Browser) :=
      {| ui := fst r; browser := snd r; mounted := true |} in
    match ev with
    | TypeUrl text => continue (setImageUrl text (ui app), browser app)
    | SubmitUrl => continue (handleUrlSubmit seen now)
    | UploadFile file => continue (handleFileUpload seen file now)
    | StartCamera outcome => continue (startCamera outcome now)
    | ClickStop => continue (stopCamera seen true now)
    | ClickReset => continue (reset seen now)
    | ClickCapture video => continue (capturePhoto seen video now)
    | DetectDone _ result =>
        continue (apiPostDetect_end result (ui app), browser app)
    | Unmount =>
        let r := stopCamera initial_state false now in
        {| ui := fst r; browser := snd r; mounted := false |}
    end.

Definition run (app : App) (evs : list Event) : App := fold_left step evs app.

End Component.

(** *** Rendering *)

Definition accent (mode : string) : string :=
  if String.eqb mode "dark" then "#7ef9a6" else "#2e7d32".

Definition drawPoint (p : option Point) : list Call :=
  match p with
  | None => []
  | Some p => [BeginPath; ArcFull (px p) (py p) 3; Fill]
  end.

(** The body of [faces.forEach((face, idx) => ...)]. *)
Definition draw_face (mode : string) (idx : nat) (face : Face) : list Call :=
  match faceRectangle face with
  | None => []
  | Some rect =>
      let lm := default no_landmarks (faceLandmarks face) in
      ([StrokeStyle (accent mode); LineWidth (Qmax' 3 4);
        StrokeRect (left rect) (top rect) (rect_width rect) (rect_height rect);
        FillStyle (accent mode); Font "bold 18px Inter, Arial";
        FillText (face_label idx) (left rect + 6) (Qmax' 20 (top rect - 8))]
       ++ drawPoint (pupilLeft lm) ++ drawPoint (pupilRight lm)
       ++ drawPoint (noseTip lm) ++ drawPoint (mouthLeft lm)
       ++ drawPoint (mouthRight lm))%list
  end.

Fixpoint forEach (mode : string) (idx : nat) (faces : list Face) : list Call :=
  match faces with
  | [] => []
  | face :: rest => (draw_face mode idx face ++ forEach mode (S idx) rest)%list
  end.

(** The [render] closure of the drawing effect. *)
Definition render (devicePixelRatio innerWidth : Q) (mode : string)
  (img : Img) (faces : list Face) : list Call :=
  let ratio := if Qeq_bool devicePixelRatio 0 then 1%Q else devicePixelRatio in
  let canvas_width := (naturalWidth img * ratio)%Q in
  let canvas_height := (naturalHeight img * ratio)%Q in
  let style_width := Qmin' (naturalWidth img) (innerWidth * 0.55)%Q in
  let style_height :=
    (naturalHeight img * (trunc style_width / naturalWidth img))%Q in
  ([SetWidth canvas_width; SetHeight canvas_height;
    SetStyleWidth style_width; SetStyleHeight style_height;
    SetTransform ratio 0 0 ratio 0 0;
    ClearRect 0 0 (trunc canvas_width) (trunc canvas_height);
    DrawImage (src img) 0 0 (naturalWidth img) (naturalHeight img)]
   ++ forEach mode 0 faces)%list.

Inductive Scheduled : Type :=
| Nothing
| DrawNow (calls : list Call)
| DrawOnLoad (calls : list Call).

(** The effect that runs when [imagePreview], [faces] or [mode] change. *)
Definition render_effect (devicePixelRatio innerWidth : Q) (mode : string)
  (img : option Img) (canvas : bool) (faces : list Face) : Scheduled :=
  match img with
  | None => Nothing
  | Some img =>
      if negb canvas then Nothing
      else if complete img && negb (Qeq_bool (naturalWidth img) 0)
      then DrawNow (render devicePixelRatio innerWidth mode img faces)
      else DrawOnLoad (render devicePixelRatio innerWidth mode img faces)
  end.

(** The status line [{error || (loading ? 'Processing...' : 'Ready')}]. *)
Definition status_line (s : State) : string :=
  Classic.or_default (error s) (if loading s then "Processing..." else "Ready").

End Mui.

(* ===================================================================== *)
(** ** Concrete requests, answers and frames for the worked examples     *)
(* ===================================================================== *)

Module Samples.
Import JS Server.

Definition consts : Config :=
  {| AZURE_ENDPOINT := "https://vision.cognitiveservices.azure.com/";
     AZURE_KEY := "0123456789abcdef" |}.

Definition one_face : value :=
  JArr [JObj [("faceRectangle",
               JObj [("left", JNum 10); ("top", JNum 20);
                     ("width", JNum 100); ("height", JNum 120)])]].

(** A service that finds one face in everything. *)
Definition finds_one_face (_ : RequestConfig) : AxiosResult :=
  Resolved one_face.

Definition unauthorized : Error :=
  {| message := "Request failed with status code 401";
     response := Some {| reply_status := 401;
                         reply_data :=
                           JObj [("error",
                                  JObj [("code", JStr "Unauthorized");
                                        ("message", JStr "Access denied due to invalid subscription key.")])] |} |}.

(** A service that refuses the credential. *)
Definition refuses (_ : RequestConfig) : AxiosResult := Rejected unauthorized.

Definition url_only : Body :=
  {| imageUrl := JStr "https://example.com/face.jpg"; imageData := JUndefined |}.

(** Both fields: a URL and three bytes of inline data. *)
Definition url_and_tiny_inline : Body :=
  {| imageUrl := JStr "https://example.com/face.jpg"; imageData := JStr "AAAA" |}.

Definition tiny_inline : Body :=
  {| imageUrl := JUndefined; imageData := JStr "data:image/jpeg;base64,AAAA" |}.

(** 1024 bytes of inline data behind a data-URL prefix. *)
Definition kilobyte_text : string :=
  "data:image/jpeg;base64," +:+ Node.repeat_char "A" 1366.

Definition kilobyte_inline : Body :=
  {| imageUrl := JUndefined; imageData := JStr kilobyte_text |}.

Definition empty_body : Body :=
  {| imageUrl := JUndefined; imageData := JUndefined |}.

Definition preview : Client.Img :=
  {| Client.src := "https://example.com/face.jpg";
     Client.img_width := 640; Client.img_height := 480;
     Client.naturalWidth := 640; Client.naturalHeight := 480;
     Client.complete := true |}.

Definition face_at_10_20 : Client.Face :=
  {| Client.faceRectangle :=
       Some {| Client.left := 10; Client.top := 20;
               Client.rect_width := 100; Client.rect_height := 120 |};
     Client.faceLandmarks := None |}.

(** A 2x1 video frame: pixel 7 on the left, pixel 9 on the right. *)
Definition two_pixels : Bitmap.Frame :=
  {| Bitmap.videoWidth := 2; Bitmap.videoHeight := 1;
     Bitmap.at_xy := fun x _ => if Z.eqb x 0 then 7%N else 9%N |}.

Definition blank_canvas : Bitmap.Canvas2D :=
  {| Bitmap.width := 300; Bitmap.height := 150;
     Bitmap.pixel := fun _ _ => Bitmap.transparent;
     Bitmap.transform := Bitmap.identity; Bitmap.saved := [] |}.

Definition idle_browser : Client.Browser :=
  {| Client.live := ∅; Client.srcObject := None;
     Client.captureCanvas := blank_canvas |}.

Definition fresh_app : Client.App :=
  {| Client.ui := Client.initial_state; Client.browser := idle_browser;
     Client.mounted := true |}.

(** A stand-in for the JPEG encoder: it only reports the size. *)
Definition size_only (c : Bitmap.Canvas2D) : string :=
  "data:image/jpeg;base64," +:+ pretty (Z.to_nat (Bitmap.width c))
  +:+ "x" +:+ pretty (Z.to_nat (Bitmap.height c)).

Definition full_env : Env :=
  {[ "AZURE_FACE_ENDPOINT" := "https://vision.cognitiveservices.azure.com/";
     "AZURE_FACE_KEY" := "0123456789abcdef" ]}.

Definition keyless_env : Env :=
  {[ "AZURE_FACE_ENDPOINT" := "https://vision.cognitiveservices.azure.com/" ]}.

End Samples.

(* ===================================================================== *)
(** ** The other routes of the proxy                                     *)
(* ===================================================================== *)

Module Routes.
Import JS Server.

#[local] Existing Instance Server.M_ret.
#[local] Existing Instance Server.M_bind.

(** [v.length], as a value: arrays and strings have one, [null] and
    [undefined] throw, anything else yields [undefined]. The length of a
    string counts its code units, which for ASCII text is its characters. *)
Definition js_length (v : value) : completion value :=
  match v with
  | JUndefined =>
      Throw (TypeError "Cannot read properties of undefined (reading 'length')")
  | JNull =>
      Throw (TypeError "Cannot read properties of null (reading 'length')")
  | JArr items => Normal (JNum (Z.of_nat (length items)))
  | JStr s => Normal (JNum (Z.of_nat (String.length s)))
  | _ => Normal JUndefined
  end.

(** [a && b] *)
Definition and_then (a b : value) : value := if truthy a then b else a.

(** [app.get('/api/health', ...)] *)
Definition health (consts : Config) : Response :=
  {| status := 200;
     json := JObj [("status", JStr "OK");
                   ("message", JStr "Face Detection API is running");
                   ("azureConfigured",
                    JBool (truthy (and_then (JStr (AZURE_ENDPOINT consts))
                                            (JStr (AZURE_KEY consts)))));
                   ("endpoint", JStr (AZURE_ENDPOINT consts))] |}.

Definition testImageUrl : string :=
  "https://raw.githubusercontent.com/Azure-Samples/cognitive-services-sample-data-files/master/Face/images/detection1.jpg".

(** The [axios.post(azureUrl, { url: testImageUrl }, {...})] of
    [/api/test-azure]. *)
Definition test_request (consts : Config) : RequestConfig :=
  {| method := "POST";
     url := strip_trailing_slash (AZURE_ENDPOINT consts) +:+ "/face/v1.0/detect";
     content_type := "application/json";
     subscription_key := AZURE_KEY consts;
     params := [("returnFaceId", "true")];
     data := JsonData (JObj [("url", JStr testImageUrl)]);
     unbounded_body := false |}.

(** [error.response?.status] *)
Definition upstream_status (error : Error) : value :=
  match response error with
  | Some r => JNum (reply_status r)
  | None => JUndefined
  end.

(** The [catch] block of [/api/test-azure]. *)
Definition test_on_error (error : Error) : Response :=
  {| status := 500;
     json := JObj [("success", JBool false);
                   ("error", or_else (get (get (error_data error) "error") "message")
                                     (JStr (message error)));
                   ("code", get (get (error_data error) "error") "code");
                   ("statusCode", upstream_status error)] |}.

(** [app.get('/api/test-azure', ...)] *)
Definition test_azure (service : RequestConfig -> AxiosResult) (consts : Config)
  : Response * list RequestConfig :=
  try_catch
    (response_data ← axios service (test_request consts);
     facesDetected ← lift (js_length response_data);
     mret {| status := 200;
             json := JObj [("success", JBool true);
                           ("message", JStr "Azure Face API is working correctly!");
                           ("facesDetected", facesDetected)] |})
    test_on_error [].

End Routes.

(* ===================================================================== *)
(** ** Further views of a list of drawing calls                          *)
(* ===================================================================== *)

Module Views.
Import Canvas Client.

(** The landmark markers drawn by a list of calls: centre and radius. *)
Fixpoint markers (calls : list Call) : list (Q * Q * Q) :=
  match calls with
  | [] => []
  | ArcFull x y r :: rest => (x, y, r) :: markers rest
  | _ :: rest => markers rest
  end.

(** Where the labels are written: the anchor of each [fillText]. *)
Fixpoint label_anchors (calls : list Call) : list (Q * Q) :=
  match calls with
  | [] => []
  | FillText _ x y :: rest => (x, y) :: label_anchors rest
  | _ :: rest => label_anchors rest
  end.

Definition marker_at (p : option Point) : list (Q * Q * Q) :=
  match p with
  | Some p => [(px p, py p, 3%Q)]
  | None => []
  end.

(** The markers a set of landmarks calls for: the five named points that are
    present, in the order the code visits them. *)
Definition landmark_markers (lm : Landmarks) : list (Q * Q * Q) :=
  (marker_at (pupilLeft lm) ++ marker_at (pupilRight lm)
   ++ marker_at (noseTip lm) ++ marker_at (mouthLeft lm)
   ++ marker_at (mouthRight lm))%list.

(** The markers of a face that has a rectangle. *)
Definition face_markers (face : Face) : list (Q * Q * Q) :=
  match faceRectangle face, faceLandmarks face with
  | Some _, Some lm => landmark_markers lm
  | _, _ => []
  end.

(** The labels of the records that have a rectangle, each numbered by its
    place in the list. *)
Fixpoint kept_labels (idx : nat) (faces : list Face) : list string :=
  match faces with
  | [] => []
  | face :: rest =>
      match faceRectangle face with
      | Some _ => face_label idx :: kept_labels (S idx) rest
      | None => kept_labels (S idx) rest
      end
  end.

(** The records before the first one without a rectangle. *)
Fixpoint leading (faces : list Face) : list Face :=
  match faces with
  | [] => []
  | face :: rest =>
      match faceRectangle face with
      | Some _ => face :: leading rest
      | None => []
      end
  end.

(** The calls that resize, clear or re-transform the canvas, in order. *)
Fixpoint resets (calls : list Call) : list Call :=
  match calls with
  | [] => []
  | SetWidth w :: rest => SetWidth w :: resets rest
  | SetHeight h :: rest => SetHeight h :: resets rest
  | SetTransform a b c d e f :: rest => SetTransform a b c d e f :: resets rest
  | ClearRect x y w h :: rest => ClearRect x y w h :: resets rest
  | _ :: rest => resets rest
  end.

(** Calls that paint neither an image nor an overlay. *)
Definition setup_only (calls : list Call) : Prop :=
  images calls = [] /\ rectangles calls = [] /\ labels calls = []
  /\ markers calls = [].

End Views.

(* ===================================================================== *)
(** ** The unused helper of the plain client                             *)
(* ===================================================================== *)

Module Emotion.

Section GetEmotionText.

(** [(x * 100).toFixed(1)], the runtime's number formatting. *)
Variable percent : Q -> string.

(** The callback of the [reduce]: [entry[1] > max[1] ? entry : max]. *)
Definition pick (max entry : string * Q) : string * Q :=
  if negb (Qle_bool (snd entry) (snd max)) then entry else max.

(** [emotionEntries.reduce(...)] with no initial value. *)
Definition dominant (emotionEntries : list (string * Q))
  : JS.completion (string * Q) :=
  match emotionEntries with
  | [] => JS.Throw (JS.TypeError "Reduce of empty array with no initial value")
  | first :: rest => JS.Normal (fold_left pick rest first)
  end.

(** [getEmotionText] of the plain client; [None] is a missing [emotions]
    object, the list is [Object.entries(emotions)]. *)
Definition getEmotionText (emotions : option (list (string * Q)))
  : JS.completion string :=
  match emotions with
  | None => JS.Normal "N/A"
  | Some emotionEntries =>
      match dominant emotionEntries with
      | JS.Normal d =>
          JS.Normal (fst d +:+ " (" +:+ percent (snd d * 100)%Q +:+ "%)")
      | JS.Throw e => JS.Throw e
      end
  end.

End GetEmotionText.

End Emotion.

(* ===================================================================== *)
(** ** When the results canvas is painted                                *)
(* ===================================================================== *)

(** The preview [<img>] and the results [<canvas>] exist while
    [imagePreview] is truthy. The plain client paints from the image's
    [onLoad] handler only; the MUI client from an effect that follows
    [imagePreview], [faces] and [mode], either at once or, while the image
    is still loading, by way of [img.onload]. *)
Module View.
Import Canvas Client.

Record Screen := {
  app : App;
  (** the preview image element, if rendered *)
  element : option Img;
  (** [img.onload], as set by the MUI effect: the faces its closure holds *)
  onload : option (list Face);
  (** the calls that make up what the results canvas shows *)
  shown : list Call
}.

Inductive Input : Type :=
| Do (ev : Event)
| ImageLoaded (naturalWidth naturalHeight : Q).

(** [imagePreview && ...] *)
Definition preview_src (s : State) : option string :=
  match imagePreview s with
  | Some p => if String.eqb p "" then None else Some p
  | None => None
  end.

(** The image element right after its [src] was set, and once loaded. *)
Definition fetching (p : string) : Img :=
  {| src := p; img_width := 0; img_height := 0;
     naturalWidth := 0; naturalHeight := 0; complete := false |}.

Definition loaded (p : string) (w h : Q) : Img :=
  {| src := p; img_width := w; img_height := h;
     naturalWidth := w; naturalHeight := h; complete := true |}.

(** Calls that begin by assigning [canvas.width] wipe what was shown; others
    add to it. *)
Definition paint (shown calls : list Call) : list Call :=
  match calls with
  | SetWidth _ :: _ => calls
  | _ => (shown ++ calls)%list
  end.

(** A render commits: the elements appear or go with [imagePreview], and a
    changed [src] makes the image load again. *)
Definition commit (old : Screen) (app' : App) : Screen :=
  if negb (mounted app') then
    {| app := app'; element := None; onload := None; shown := [] |}
  else
    match preview_src (ui app') with
    | None => {| app := app'; element := None; onload := None; shown := [] |}
    | Some p =>
        match element old with
        | None =>
            {| app := app'; element := Some (fetching p);
               onload := None; shown := [] |}
        | Some e =>
            if String.eqb (src e) p
            then {| app := app'; element := Some e;
                    onload := onload old; shown := shown old |}
            else {| app := app'; element := Some (fetching p);
                    onload := onload old; shown := shown old |}
        end
    end.

Definition fresh (b : Browser) : Screen :=
  {| app := {| ui := initial_state; browser := b; mounted := true |};
     element := None; onload := None; shown := [] |}.

Section Plain.

Variable toDataURL : Bitmap.Canvas2D -> string.

(** [<img onLoad={drawFaceBoxes}>]: the handler of the latest render, with
    the faces of the latest state, runs when the image has loaded and at no
    other time. *)
Definition plain_step (scr : Screen) (i : Input) : Screen :=
  match i with
  | Do ev => commit scr (Classic.step toDataURL (app scr) ev)
  | ImageLoaded w h =>
      match element scr with
      | None => scr
      | Some e =>
          let img := loaded (src e) w h in
          {| app := app scr; element := Some img; onload := onload scr;
             shown := paint (shown scr)
                        (fst (Classic.drawFaceBoxes (Some img) true
                                (faces (ui (app scr))))) |}
      end
  end.

Definition plain_run (scr : Screen) (inputs : list Input) : Screen :=
  fold_left plain_step inputs scr.

End Plain.

Section Mui.

Variable toDataURL : Bitmap.Canvas2D -> string.
Variable devicePixelRatio innerWidth : Q.
Variable mode : string.

(** The drawing effect. It is run here after every event; when none of its
    dependencies changed, a run only repeats what is already there. *)
Definition effect (scr : Screen) : Screen :=
  match Mui.render_effect devicePixelRatio innerWidth mode (element scr) true
          (faces (ui (app scr))) with
  | Mui.Nothing => scr
  | Mui.DrawNow calls =>
      {| app := app scr; element := element scr; onload := onload scr;
         shown := paint (shown scr) calls |}
  | Mui.DrawOnLoad _ =>
      {| app := app scr; element := element scr;
         onload := Some (faces (ui (app scr))); shown := shown scr |}
  end.

Definition mui_step (scr : Screen) (i : Input) : Screen :=
  match i with
  | Do ev => effect (commit scr (Mui.step toDataURL (app scr) ev))
  | ImageLoaded w h =>
      match element scr with
      | None => scr
      | Some e =>
          let img := loaded (src e) w h in
          {| app := app scr; element := Some img; onload := onload scr;
             shown := match onload scr with
                      | Some held =>
                          paint (shown scr)
                            (Mui.render devicePixelRatio innerWidth mode img held)
                      | None => shown scr
                      end |}
      end
  end.

Definition mui_run (scr : Screen) (inputs : list Input) : Screen :=
  fold_left mui_step inputs scr.

End Mui.

End View.

(* ===================================================================== *)
(** ** More concrete inputs                                              *)
(* ===================================================================== *)

Module MoreSamples.
Import JS Server Client.

(** A service that answers 200 with a JSON [null]. *)
Definition answers_null (_ : RequestConfig) : AxiosResult := Resolved JNull.

(** A service that answers 200 with an empty body, which the HTTP client
    hands over as the empty string. *)
Definition answers_empty (_ : RequestConfig) : AxiosResult := Resolved (JStr "").

Definition numeric_inline : Body :=
  {| Server.imageUrl := JUndefined; imageData := JNum 5 |}.

Definition landmarked_face : Face :=
  {| faceRectangle := Some {| left := 10; top := 20;
                              rect_width := 100; rect_height := 120 |};
     faceLandmarks := Some {| pupilLeft := Some {| px := 40; py := 60 |};
                              pupilRight := Some {| px := 80; py := 60 |};
                              noseTip := None;
                              mouthLeft := None;
                              mouthRight := None |} |}.

Definition rectless_face : Face :=
  {| faceRectangle := None; faceLandmarks := None |}.

(** A video element that has no frame yet. *)
Definition no_frame : Bitmap.Frame :=
  {| Bitmap.videoWidth := 0; Bitmap.videoHeight := 0;
     Bitmap.at_xy := fun _ _ => Bitmap.transparent |}.

Definition emotions : list (string * Q) :=
  [("anger", 0.1%Q); ("happiness", 0.7%Q); ("neutral", 0.7%Q)].

End MoreSamples.

(* ===================================================================== *)
(** ** Properties of the detection proxy                                 *)
(* ===================================================================== *)

Module ServerProps.
Import JS Server.

Lemma truthy_str (s : string) : truthy (JStr s) = true <-> s <> "".
Proof.
  simpl. destruct (String.eqb_spec s ""); simpl; split; congruence.
Qed.

Section Handler.

Variable base64_decode : string -> list Byte.byte.
Variable bytes_of_array : list value -> list Byte.byte.
Variable service : RequestConfig -> AxiosResult.
Variable consts : Config.

Local Abbreviation handle := (detect_faces base64_decode bytes_of_array service consts).
Local Abbreviation reply := (Server.reply base64_decode bytes_of_array service consts).
Local Abbreviation calls := (Server.calls base64_decode bytes_of_array service consts).
Local Abbreviation decoded_length := (Server.decoded_length base64_decode).

(** A request ends in one of two ways: answered locally with no outbound
    call, or answered from the outcome of exactly one outbound call. *)
Lemma detect_faces_cases (body : Body) :
  (exists r, handle body = (r, []))
  \/ (exists rc, handle body = (after_call service rc, [rc])).
Proof.
  assert (Hfwd : forall rc : RequestConfig,
    exists rc', try_catch (A := Response)
      (fun log => match axios service rc log with
                  | (Normal a, log') =>
                      match length_of a with
                      | Normal _ => (Normal {| status := 200; json := a |}, log')
                      | Throw e => (Throw e, log')
                      end
                  | (Throw e, log') => (Throw e, log')
                  end) on_error [] = (after_call service rc', [rc'])).
  { intros rc. exists rc. unfold try_catch, axios, after_call. simpl.
    destruct (service rc) as [v|e]; [|reflexivity].
    destruct (length_of v); reflexivity. }
  unfold detect_faces, detect_faces_try.
  destruct body as [u d]; cbn [imageUrl imageData].
  destruct (truthy u) eqn:Hu; cbn [negb andb].
  - right. apply Hfwd.
  - destruct (truthy d) eqn:Hd; cbn [negb andb];
      [|left; eexists; reflexivity].
    unfold includes, split_1.
    destruct d as [| |b|n|s|items|fields];
      try (left; eexists; reflexivity).
    + unfold mbind at 1. unfold M_bind at 1. unfold lift at 1.
      unfold mbind at 1. unfold M_bind at 1. unfold lift at 1.
      destruct (str_includes "base64," s); unfold str_split_1;
        [destruct (after_first "base64," s)|]; unfold lift, mret, M_ret, mbind, M_bind;
        cbn [Buffer_from];
        repeat match goal with
               | |- context [if ?c then _ else _] => destruct c
               end;
        try (left; eexists; reflexivity);
        right; apply Hfwd.
    + unfold mbind at 1. unfold M_bind at 1. unfold lift at 1.
      unfold mbind at 1. unfold M_bind at 1. unfold lift at 1.
      destruct (existsb _ items);
        unfold lift, mret, M_ret, mbind, M_bind; cbn [Buffer_from];
        repeat match goal with
               | |- context [if ?c then _ else _] => destruct c
               end;
        try (left; eexists; reflexivity);
        right; apply Hfwd.
Qed.

(** With a truthy [imageUrl] the request is the URL request, whatever else
    the body holds. *)
Lemma url_branch (u d : value) :
  truthy u = true ->
  handle {| imageUrl := u; imageData := d |}
  = (after_call service (url_request consts u), [url_request consts u]).
Proof.
  intros Hu.
  unfold detect_faces, try_catch, detect_faces_try, after_call. simpl.
  rewrite Hu. simpl.
  unfold mbind, M_bind, mret, M_ret, axios, lift, url_request, azure_url. simpl.
  destruct (service _) as [v|e]; simpl; [|reflexivity].
  destruct (length_of v); reflexivity.
Qed.

(** The inline branch on a non-empty string, by decoded size. *)
Lemma inline_branch (u : value) (s : string) :
  truthy u = false -> s <> "" ->
  handle {| imageUrl := u; imageData := JStr s |}
  = if (decoded_length s >? MAX_BYTES)%Z
    then (bad_request "Image too large. Maximum size is 6MB.", [])
    else if (decoded_length s <? MIN_BYTES)%Z
    then (bad_request "Image too small or corrupted.", [])
    else let rc := binary_request consts (base64_decode (inline_text s)) in
         (after_call service rc, [rc]).
Proof.
  intros Hu Hs. apply truthy_str in Hs.
  unfold detect_faces, try_catch, detect_faces_try, after_call,
    Server.decoded_length, inline_text.
  cbn [imageUrl imageData]. rewrite Hu, Hs. cbn [negb andb].
  unfold mbind, M_bind, mret, M_ret, axios, lift, includes, split_1,
    str_split_1, str_includes, binary_request, azure_url.
  destruct (after_first "base64," s) as [rest|]; simpl;
    repeat match goal with
           | |- context [if ?c then _ else _] => destruct c; simpl
           end; try reflexivity;
    (destruct (service _) as [v|e]; simpl; [|reflexivity]);
    destruct (length_of v); reflexivity.
Qed.

Lemma neither_branch (u d : value) :
  truthy u = false -> truthy d = false ->
  handle {| imageUrl := u; imageData := d |}
  = (bad_request "Either imageUrl or imageData is required", []).
Proof.
  intros Hu Hd.
  unfold detect_faces, try_catch, detect_faces_try. simpl.
  rewrite Hu, Hd. reflexivity.
Qed.

Lemma calls_cases (body : Body) (rc : RequestConfig) :
  In rc (calls body) ->
  calls body = [rc] /\ reply body = after_call service rc.
Proof.
  unfold Server.calls, Server.reply.
  destruct (detect_faces_cases body) as [[r H]|[rc' H]]; rewrite H; simpl.
  - intros [].
  - intros [->|[]]. split; reflexivity.
Qed.

(** C1 (as amended): for a request with no truthy [imageUrl] whose
    [imageData] is a string, a decoded length below 1024 bytes or above
    6*1024*1024 bytes is answered with status 400 and one of the handler's
    three error messages, with no call to the face-detection service; a
    non-empty string whose decoded length lies in the inclusive range passes
    the check and is sent on as raw bytes. *)
Theorem inline_size_gate (body : Body) (s : string) :
  truthy (imageUrl body) = false ->
  imageData body = JStr s ->
  ((decoded_length s < MIN_BYTES \/ MAX_BYTES < decoded_length s)%Z ->
     status (reply body) = 400
     /\ (exists msg,
           In msg ["Either imageUrl or imageData is required";
                   "Image too large. Maximum size is 6MB.";
                   "Image too small or corrupted."]
           /\ json (reply body) = JObj [("error", JStr msg)])
     /\ calls body = [])
  /\ (s <> "" -> (MIN_BYTES <= decoded_length s <= MAX_BYTES)%Z ->
       calls body = [binary_request consts (base64_decode (inline_text s))]).
Proof.
  destruct body as [u d]; cbn [imageUrl imageData]. intros Hu ->.
  unfold Server.reply, Server.calls.
  destruct (String.eqb_spec s "") as [->|Hs].
  - split; [|congruence]. intros _.
    rewrite neither_branch by (assumption || reflexivity). simpl.
    split; [reflexivity|]. split; [|reflexivity].
    eexists; split; [|reflexivity]. simpl. auto.
  - rewrite (inline_branch u s Hu Hs).
    destruct (Z.gtb_spec (decoded_length s) MAX_BYTES) as [Hbig|Hbig];
      [|destruct (Z.ltb_spec (decoded_length s) MIN_BYTES) as [Hsmall|Hsmall]].
    + split; [intros _|unfold MIN_BYTES, MAX_BYTES in *; lia].
      simpl. split; [reflexivity|]. split; [|reflexivity].
      eexists; split; [|reflexivity]. simpl. auto.
    + split; [intros _|unfold MIN_BYTES, MAX_BYTES in *; lia].
      simpl. split; [reflexivity|]. split; [|reflexivity].
      eexists; split; [|reflexivity]. simpl. auto.
    + split; [unfold MIN_BYTES, MAX_BYTES in *; lia|].
      intros _ _. reflexivity.
Qed.

(** C2 (as amended): a request in which neither [imageUrl] nor [imageData]
    is supplied (both absent or falsy) is answered with status 400 and no
    call to the service; a request that supplies both is not rejected, its
    URL is sent to the service. *)
Theorem missing_payload_rejected (body : Body) :
  (truthy (imageUrl body) = false -> truthy (imageData body) = false ->
     reply body = bad_request "Either imageUrl or imageData is required"
     /\ status (reply body) = 400
     /\ calls body = [])
  /\ (truthy (imageUrl body) = true -> truthy (imageData body) = true ->
       calls body = [url_request consts (imageUrl body)]).
Proof.
  destruct body as [u d]; cbn [imageUrl imageData].
  unfold Server.reply, Server.calls. split.
  - intros Hu Hd. rewrite neither_branch by assumption. auto.
  - intros Hu _. rewrite url_branch by assumption. reflexivity.
Qed.

(** C5: when the call to the service succeeds with an array of face
    records, the proxy answers 200 with that array unchanged. *)
Theorem success_relays_verbatim (body : Body) (rc : RequestConfig)
  (records : list value) :
  In rc (calls body) ->
  service rc = Resolved (JArr records) ->
  reply body = {| status := 200; json := JArr records |}.
Proof.
  intros Hin Hok. destruct (calls_cases body rc Hin) as [_ ->].
  unfold after_call. rewrite Hok. reflexivity.
Qed.

(** C6: when the call to the service fails, the proxy answers with the
    service's status code when there is one and with 500 otherwise; the body
    carries the best available message (the service's error message, else
    the top-level message of its answer, else the client error's message,
    else a fixed text), the service's error code or ['Unknown'], the
    suggestion listed for that code in the fixed table (empty when the code
    is not in it), and the service's raw answer. *)
Theorem failure_report (body : Body) (rc : RequestConfig) (e : Error) :
  In rc (calls body) ->
  service rc = Rejected e ->
  let detail := error_data e in
  let code := get (get detail "error") "code" in
  let sent := json (reply body) in
  (forall r, response e = Some r -> reply_status r <> 0%Z ->
     status (reply body) = reply_status r)
  /\ (forall r, response e = Some r -> reply_status r = 0%Z ->
       status (reply body) = 500)
  /\ (response e = None -> status (reply body) = 500)
  /\ get sent "error"
     = first_truthy [get (get detail "error") "message";
                     get detail "message";
                     JStr (message e)] (JStr "Face detection failed")
  /\ get sent "code" = (if truthy code then code else JStr "Unknown")
  /\ get sent "suggestion"
     = JStr (match code with
             | JStr c => default "" (suggestions !! c)
             | _ => ""
             end)
  /\ get sent "details" = detail.
Proof.
  intros Hin Hfail detail code sent. subst sent.
  destruct (calls_cases body rc Hin) as [_ ->].
  unfold after_call. rewrite Hfail.
  unfold on_error, error_status. cbn [status json].
  repeat split.
  - intros r -> Hr. destruct (Z.eqb_spec (reply_status r) 0); congruence.
  - intros r -> Hr. rewrite Hr. reflexivity.
  - intros ->. reflexivity.
  - cbn. unfold error_code, or_else. fold detail code.
    destruct (truthy code) eqn:Hc.
    + destruct code as [| | | |c| |]; try reflexivity. f_equal.
      unfold suggestion_for, strict_eq_str, suggestions.
      repeat match goal with
             | |- context [String.eqb c ?k] =>
                 destruct (String.eqb_spec c k) as [->|?]; [reflexivity|]
             end.
      cbn [list_to_map foldr uncurry fst snd].
      rewrite !lookup_insert_ne by congruence. rewrite lookup_empty.
      reflexivity.
    + destruct code as [| | | |c| |]; try reflexivity.
      simpl in Hc. destruct (String.eqb_spec c ""); [subst|discriminate].
      reflexivity.
Qed.

End Handler.

(** C10: with a non-empty [imageUrl] the handler takes the URL branch: it
    makes exactly one call, carrying [{ url: imageUrl }], and its whole
    outcome is the same whatever [imageData] holds and whatever the decoders
    would make of it; nothing is decoded or size-checked, and a request with
    both fields is forwarded. *)
Theorem url_path_unconditional
  (decode1 decode2 : string -> list Byte.byte)
  (array1 array2 : list value -> list Byte.byte)
  (service : RequestConfig -> AxiosResult) (consts : Config)
  (u : string) (d1 d2 : value) :
  u <> "" ->
  detect_faces decode1 array1 service consts
    {| imageUrl := JStr u; imageData := d1 |}
  = detect_faces decode2 array2 service consts
      {| imageUrl := JStr u; imageData := d2 |}
  /\ Server.calls decode1 array1 service consts
       {| imageUrl := JStr u; imageData := d1 |}
     = [url_request consts (JStr u)]
  /\ data (url_request consts (JStr u)) = JsonData (JObj [("url", JStr u)])
  /\ Server.reply decode1 array1 service consts
       {| imageUrl := JStr u; imageData := d1 |}
     = after_call service (url_request consts (JStr u)).
Proof.
  intros Hu. apply truthy_str in Hu.
  unfold Server.calls, Server.reply.
  rewrite !url_branch by assumption. auto.
Qed.

End ServerProps.

(* ===================================================================== *)
(** ** Properties of the process lifecycle                               *)
(* ===================================================================== *)

Module LifecycleProps.
Import JS Server.

Section Lifecycle.

Variable base64_decode : string -> list Byte.byte.
Variable bytes_of_array : list value -> list Byte.byte.
Variable service : RequestConfig -> AxiosResult.

Local Abbreviation step := (Server.step base64_decode bytes_of_array service).
Local Abbreviation run := (Server.run base64_decode bytes_of_array service).

(** [startup] lets the process listen only with both values present and
    non-empty, and then the constants are exactly those values. *)
Lemma startup_listening (env : Env) (port : value) (consts : Config) :
  startup env = Listening port consts ->
  env !! "AZURE_FACE_ENDPOINT" = Some (AZURE_ENDPOINT consts)
  /\ env !! "AZURE_FACE_KEY" = Some (AZURE_KEY consts)
  /\ AZURE_ENDPOINT consts <> "" /\ AZURE_KEY consts <> "".
Proof.
  unfold startup, env_value.
  destruct (env !! "AZURE_FACE_ENDPOINT") as [e|] eqn:He;
    destruct (env !! "AZURE_FACE_KEY") as [k|] eqn:Hk; simpl;
    try discriminate.
  - destruct (String.eqb_spec e ""); simpl; [discriminate|].
    destruct (String.eqb_spec k ""); simpl; [discriminate|].
    intros [= _ <-]. simpl. auto.
  - destruct (negb (negb (String.eqb e ""))); discriminate.
Qed.

Lemma startup_absent (env : Env) :
  env !! "AZURE_FACE_ENDPOINT" = None \/ env !! "AZURE_FACE_KEY" = None ->
  startup env = Exited 1.
Proof.
  unfold startup, env_value. intros [-> | ->]; simpl; [reflexivity|].
  destruct (env !! "AZURE_FACE_ENDPOINT") as [e|]; simpl; [|reflexivity].
  destruct (negb (negb (String.eqb e ""))); reflexivity.
Qed.

(** No event changes the phase of a started process. *)
Lemma run_started (evs : list Event) (sys : System) (p : Process) :
  phase sys = Started p -> phase (run sys evs) = Started p.
Proof.
  revert sys. induction evs as [|ev evs IH]; intros sys Hp; [exact Hp|].
  simpl. apply IH.
  destruct ev; simpl; try assumption.
  - rewrite Hp. assumption.
  - rewrite Hp. destruct p; [assumption|].
    destruct (detect_faces _ _ _ _ _). reflexivity.
Qed.

(** An exited process answers nothing and calls nothing. *)
Lemma run_exited (evs : list Event) (sys : System) (code : Z) :
  phase sys = Started (Exited code) ->
  served (run sys evs) = served sys /\ outbound (run sys evs) = outbound sys.
Proof.
  revert sys. induction evs as [|ev evs IH]; intros sys Hp; [auto|].
  simpl.
  assert (Hstep : phase (step sys ev) = Started (Exited code)
                  /\ served (step sys ev) = served sys
                  /\ outbound (step sys ev) = outbound sys).
  { destruct ev; simpl; rewrite ?Hp; simpl; auto. }
  destruct Hstep as (Hp' & Hs & Ho).
  destruct (IH _ Hp') as [-> ->]. auto.
Qed.

(** C7: the endpoint and the credential are read when the process boots and
    never again. If either is absent the process exits with code 1 and no
    request is ever answered or forwarded; if the process listens, its
    constants are the two values the environment held at boot, both
    non-empty, whatever happens to the environment afterwards; and a
    request is only ever answered by a process that listens. *)
Theorem configuration_fixed_at_startup (env : Env) (evs : list Event) :
  let final := run (initial env) (Boot :: evs) in
  ((env !! "AZURE_FACE_ENDPOINT" = None \/ env !! "AZURE_FACE_KEY" = None) ->
     phase final = Started (Exited 1)
     /\ served final = [] /\ outbound final = [])
  /\ (forall port consts,
        phase final = Started (Listening port consts) ->
        env !! "AZURE_FACE_ENDPOINT" = Some (AZURE_ENDPOINT consts)
        /\ env !! "AZURE_FACE_KEY" = Some (AZURE_KEY consts)
        /\ AZURE_ENDPOINT consts <> "" /\ AZURE_KEY consts <> "")
  /\ (served final <> [] ->
        exists port consts, phase final = Started (Listening port consts)).
Proof.
  cbn zeta. unfold Server.run. cbn [fold_left].
  change (fold_left step evs ?s) with (run s evs).
  set (booted := step (initial env) Boot).
  assert (Hb : phase booted = Started (startup env)) by reflexivity.
  pose proof (run_started evs booted _ Hb) as Hphase.
  split; [|split].
  - intros Habs. rewrite (startup_absent env Habs) in Hb, Hphase.
    split; [exact Hphase|]. apply (run_exited evs booted 1 Hb).
  - intros port consts Hl. rewrite Hphase in Hl. injection Hl as Hl.
    apply (startup_listening env port consts Hl).
  - intros Hserved. rewrite Hphase.
    destruct (startup env) as [code|port consts] eqn:Hs; [|eauto].
    destruct (run_exited evs booted code Hb) as [Hs' _].
    rewrite Hs' in Hserved. contradiction.
Qed.

End Lifecycle.

End LifecycleProps.

(* ===================================================================== *)
(** ** Worked examples for the proxy                                     *)
(* ===================================================================== *)

Module ServerExamples.
Import JS Server Samples.

Local Abbreviation reply := (Server.reply Node.base64_decode Node.bytes_of_array).
Local Abbreviation calls := (Server.calls Node.base64_decode Node.bytes_of_array).

(** C1 as stated fails: a request that also carries a URL is forwarded
    although its inline payload decodes to three bytes. *)
Lemma size_gate_skipped_with_url :
  (Server.decoded_length Node.base64_decode "AAAA" < MIN_BYTES)%Z
  /\ status (reply finds_one_face consts url_and_tiny_inline) <> 400
  /\ calls finds_one_face consts url_and_tiny_inline <> [].
Proof.
  split; [reflexivity|]. split; vm_compute; discriminate.
Qed.

(** C2 as stated fails: a request that supplies both fields is not
    rejected. *)
Lemma both_fields_forwarded :
  truthy (imageUrl url_and_tiny_inline) = true
  /\ truthy (imageData url_and_tiny_inline) = true
  /\ reply finds_one_face consts url_and_tiny_inline
     = {| status := 200; json := one_face |}
  /\ calls finds_one_face consts url_and_tiny_inline
     = [url_request consts (JStr "https://example.com/face.jpg")].
Proof.
  repeat split.
Qed.

Lemma inline_size_gate_witness :
  status (reply finds_one_face consts tiny_inline) = 400
  /\ calls finds_one_face consts tiny_inline = []
  /\ calls finds_one_face consts kilobyte_inline
     = [binary_request consts
          (Node.base64_decode (inline_text kilobyte_text))].
Proof.
  pose proof (ServerProps.inline_size_gate Node.base64_decode
                Node.bytes_of_array finds_one_face consts tiny_inline
                "data:image/jpeg;base64,AAAA" eq_refl eq_refl) as [Hsmall _].
  pose proof (ServerProps.inline_size_gate Node.base64_decode
                Node.bytes_of_array finds_one_face consts kilobyte_inline
                kilobyte_text eq_refl eq_refl) as [_ Hfits].
  destruct Hsmall as (H400 & _ & Hnone); [left; reflexivity|].
  split; [exact H400|]. split; [exact Hnone|].
  apply Hfits; [discriminate|].
  split; vm_compute; discriminate.
Defined.

Lemma missing_payload_rejected_witness :
  status (reply finds_one_face consts empty_body) = 400
  /\ calls finds_one_face consts empty_body = [].
Proof.
  pose proof (ServerProps.missing_payload_rejected Node.base64_decode
                Node.bytes_of_array finds_one_face consts empty_body) as [H _].
  destruct (H eq_refl eq_refl) as (_ & H400 & Hnone).
  split; assumption.
Defined.

Lemma success_relays_verbatim_witness :
  reply finds_one_face consts url_only = {| status := 200; json := one_face |}.
Proof.
  apply (ServerProps.success_relays_verbatim Node.base64_decode
           Node.bytes_of_array finds_one_face consts url_only
           (url_request consts (imageUrl url_only))).
  - left. reflexivity.
  - reflexivity.
Defined.

Lemma failure_report_witness :
  status (reply refuses consts url_only) = 401
  /\ get (json (reply refuses consts url_only)) "code" = JStr "Unauthorized"
  /\ get (json (reply refuses consts url_only)) "suggestion"
     = JStr "Invalid API key. Please check your Azure subscription key.".
Proof.
  pose proof (ServerProps.failure_report Node.base64_decode
                Node.bytes_of_array refuses consts url_only
                (url_request consts (imageUrl url_only)) unauthorized
                (or_introl eq_refl) eq_refl) as H.
  cbn zeta in H. destruct H as (Hst & _ & _ & _ & Hcode & Hsug & _).
  split; [|split].
  - apply (Hst _ eq_refl). discriminate.
  - exact Hcode.
  - rewrite Hsug. vm_compute. reflexivity.
Defined.

Lemma url_path_unconditional_witness :
  calls finds_one_face consts url_and_tiny_inline
  = [url_request consts (JStr "https://example.com/face.jpg")].
Proof.
  apply (ServerProps.url_path_unconditional Node.base64_decode
           Node.base64_decode Node.bytes_of_array Node.bytes_of_array
           finds_one_face consts "https://example.com/face.jpg"
           (JStr "AAAA") JUndefined).
  discriminate.
Defined.

Lemma configuration_fixed_at_startup_witness :
  phase (Server.run Node.base64_decode Node.bytes_of_array finds_one_face
           (initial keyless_env)
           [Boot; SetEnv "AZURE_FACE_KEY" "late"; PostDetectFaces url_only])
  = Started (Exited 1).
Proof.
  apply (LifecycleProps.configuration_fixed_at_startup Node.base64_decode
           Node.bytes_of_array finds_one_face keyless_env
           [SetEnv "AZURE_FACE_KEY" "late"; PostDetectFaces url_only]).
  right. reflexivity.
Defined.

End ServerExamples.

(* ===================================================================== *)
(** ** Properties of the render step                                     *)
(* ===================================================================== *)

Module RenderProps.
Import Canvas Client.

Lemma rectangles_app (a b : list Call) :
  rectangles (a ++ b) = (rectangles a ++ rectangles b)%list.
Proof.
  induction a as [|c a IH]; [reflexivity|].
  destruct c; simpl; rewrite ?IH; reflexivity.
Qed.

Lemma labels_app (a b : list Call) :
  labels (a ++ b) = (labels a ++ labels b)%list.
Proof.
  induction a as [|c a IH]; [reflexivity|].
  destruct c; simpl; rewrite ?IH; reflexivity.
Qed.

Lemma images_app (a b : list Call) :
  images (a ++ b) = (images a ++ images b)%list.
Proof.
  induction a as [|c a IH]; [reflexivity|].
  destruct c; simpl; rewrite ?IH; reflexivity.
Qed.

(** A landmark marker is neither a rectangle nor a label nor an image. *)
Lemma draw_point_plain (p : option Point) :
  rectangles (Classic.draw_point p) = []
  /\ labels (Classic.draw_point p) = []
  /\ images (Classic.draw_point p) = [].
Proof. destruct p; auto. Qed.

Lemma drawPoint_plain (p : option Point) :
  rectangles (Mui.drawPoint p) = []
  /\ labels (Mui.drawPoint p) = []
  /\ images (Mui.drawPoint p) = [].
Proof. destruct p; auto. Qed.

Ltac markers :=
  repeat match goal with
         | |- context [rectangles (Classic.draw_point ?p)] =>
             rewrite (proj1 (draw_point_plain p))
         | |- context [labels (Classic.draw_point ?p)] =>
             rewrite (proj1 (proj2 (draw_point_plain p)))
         | |- context [rectangles (Mui.drawPoint ?p)] =>
             rewrite (proj1 (drawPoint_plain p))
         | |- context [labels (Mui.drawPoint ?p)] =>
             rewrite (proj1 (proj2 (drawPoint_plain p)))
         end.

(** One face with a rectangle: one rectangle at its coordinates, one label
    with its number. *)
Lemma classic_draw_face (index : nat) (face : Face) (rect : Rect) :
  faceRectangle face = Some rect ->
  snd (Classic.draw_face index face) = JS.Normal tt
  /\ rectangles (fst (Classic.draw_face index face))
     = [(left rect, top rect, rect_width rect, rect_height rect)]
  /\ labels (fst (Classic.draw_face index face)) = [face_label index].
Proof.
  intros Hr. unfold Classic.draw_face. rewrite Hr.
  destruct (faceLandmarks face) as [lm|]; cbn [fst snd];
    (split; [reflexivity|]);
    cbn [app rectangles labels];
    rewrite ?rectangles_app, ?labels_app; markers; auto.
Qed.

Lemma mui_draw_face (mode : string) (idx : nat) (face : Face) (rect : Rect) :
  faceRectangle face = Some rect ->
  rectangles (Mui.draw_face mode idx face)
  = [(left rect, top rect, rect_width rect, rect_height rect)]
  /\ labels (Mui.draw_face mode idx face) = [face_label idx].
Proof.
  intros Hr. unfold Mui.draw_face. rewrite Hr.
  cbn [app rectangles labels].
  rewrite ?rectangles_app, ?labels_app; markers; auto.
Qed.

Lemma classic_forEach (faces : list Face) (index : nat) :
  Forall (fun face => is_Some (faceRectangle face)) faces ->
  snd (Classic.forEach index faces) = JS.Normal tt
  /\ Some <$> rectangles (fst (Classic.forEach index faces)) = reported <$> faces
  /\ labels (fst (Classic.forEach index faces))
     = face_label <$> seq index (length faces).
Proof.
  intros Hall. revert index.
  induction Hall as [|face faces [rect Hr] _ IH]; intros index; [auto|].
  destruct (classic_draw_face index face rect Hr) as (Hok & Hrect & Hlab).
  destruct (IH (S index)) as (Hok' & Hrect' & Hlab').
  cbn [Classic.forEach].
  destruct (Classic.draw_face index face) as [calls outcome].
  cbn [fst snd] in *. subst outcome.
  destruct (Classic.forEach (S index) faces) as [more outcome'].
  cbn [fst snd] in *.
  rewrite rectangles_app, labels_app, Hrect, Hlab, Hlab'.
  split; [assumption|]. split; [|reflexivity].
  cbn [app fmap list_fmap]. rewrite <- Hrect'.
  unfold reported. rewrite Hr. reflexivity.
Qed.

Lemma mui_forEach (mode : string) (faces : list Face) (idx : nat) :
  Forall (fun face => is_Some (faceRectangle face)) faces ->
  Some <$> rectangles (Mui.forEach mode idx faces) = reported <$> faces
  /\ labels (Mui.forEach mode idx faces) = face_label <$> seq idx (length faces).
Proof.
  intros Hall. revert idx.
  induction Hall as [|face faces [rect Hr] _ IH]; intros idx; [auto|].
  destruct (mui_draw_face mode idx face rect Hr) as (Hrect & Hlab).
  destruct (IH (S idx)) as (Hrect' & Hlab').
  cbn [Mui.forEach].
  rewrite rectangles_app, labels_app, Hrect, Hlab, Hlab'.
  split; [|reflexivity].
  cbn [app fmap list_fmap]. rewrite <- Hrect'.
  unfold reported. rewrite Hr. reflexivity.
Qed.

Lemma face_labels_from_one (n : nat) :
  face_label <$> seq 0 n = (fun k => "Face " +:+ pretty k) <$> seq 1 n.
Proof.
  rewrite <- fmap_S_seq, <- list_fmap_compose.
  apply list_fmap_ext. intros _ k _. unfold face_label. simpl.
  replace (k + 1)%nat with (S k) by lia. reflexivity.
Qed.

(** Once it runs on a result of N face records that each carry a rectangle,
    the drawing code strokes exactly N rectangles, the i-th at the
    coordinates (left, top, width, height) of the i-th record, and writes
    exactly the N labels "Face 1" to "Face N" in list order; in
    [drawFaceBoxes] and in the MUI [render]. *)
Theorem render_draws_each_face (faces : list Face) (img : Img)
  (devicePixelRatio innerWidth : Q) (mode : string) :
  Forall (fun face => is_Some (faceRectangle face)) faces ->
  let plain := Classic.drawFaceBoxes (Some img) true faces in
  let mui := Mui.render devicePixelRatio innerWidth mode img faces in
  (snd plain = JS.Normal tt
   /\ length (rectangles (fst plain)) = length faces
   /\ Some <$> rectangles (fst plain) = reported <$> faces
   /\ labels (fst plain)
      = (fun k => "Face " +:+ pretty k) <$> seq 1 (length faces))
  /\ (length (rectangles mui) = length faces
      /\ Some <$> rectangles mui = reported <$> faces
      /\ labels mui = (fun k => "Face " +:+ pretty k) <$> seq 1 (length faces)).
Proof.
  intros Hall plain mui.
  assert (Hlen : forall calls : list Call,
             Some <$> rectangles calls = reported <$> faces ->
             length (rectangles calls) = length faces).
  { intros calls H. apply (f_equal length) in H.
    rewrite !length_fmap in H. exact H. }
  destruct (classic_forEach faces 0 Hall) as (Hok & Hrect & Hlab).
  destruct (mui_forEach mode faces 0 Hall) as (Hrect' & Hlab').
  rewrite face_labels_from_one in Hlab, Hlab'.
  split.
  - subst plain. unfold Classic.drawFaceBoxes. cbn [negb orb].
    destruct faces as [|face faces]; [cbn; auto|].
    cbn [length Nat.eqb].
    destruct (Classic.forEach 0 (face :: faces)) as [calls outcome].
    cbn [fst snd rectangles labels] in *. auto.
  - subst mui. unfold Mui.render.
    rewrite rectangles_app, labels_app. cbn [rectangles labels app]. auto.
Qed.

(** C4 (as amended): after a detection that succeeds with zero face
    records both clients hold an empty result and show a "No faces
    detected" notice; the MUI render step then paints the preview image
    and no rectangle, while the plain client's [drawFaceBoxes] returns
    before painting anything at all. *)
Theorem zero_faces_rendering (origin : Origin) (s : State) (img : Img)
  (devicePixelRatio innerWidth : Q) (mode : string) :
  let plain := Classic.on_detect_done origin (Detected []) s in
  let mui := Mui.apiPostDetect_end (Detected []) s in
  (faces plain = []
   /\ Classic.notice plain = Some (Classic.no_faces_message origin)
   /\ Classic.drawFaceBoxes (Some img) true (faces plain) = ([], JS.Normal tt))
  /\ (faces mui = []
      /\ Mui.status_line mui = "No faces detected"
      /\ images (Mui.render devicePixelRatio innerWidth mode img (faces mui))
         = [src img]
      /\ rectangles (Mui.render devicePixelRatio innerWidth mode img (faces mui))
         = []).
Proof.
  cbn. repeat split. destruct origin; reflexivity.
Qed.

End RenderProps.

(* ===================================================================== *)
(** ** Properties of the capture step                                    *)
(* ===================================================================== *)

Module CaptureProps.
Import Bitmap Client.

(** Sampling through a flip by -1 placed at [-w]: column [X] of the canvas
    reads column [w - 1 - X] of the source. *)
Lemma sample_flipped (w X : Z) :
  (0 < w)%Z -> sample (-1) 0 (- w) w w X = (w - 1 - X)%Z.
Proof.
  intros Hw. unfold sample. symmetry.
  apply (Z.div_unique _ _ _ (- w)%Z); [right; lia | ring].
Qed.

(** Sampling through the identity: row [Y] reads row [Y]. *)
Lemma sample_straight (h Y : Z) :
  (0 < h)%Z -> sample 1 0 0 h h Y = Y.
Proof.
  intros Hh. unfold sample. symmetry.
  apply (Z.div_unique _ _ _ h); [left; lia | ring].
Qed.

Lemma classic_capture_pixels (video : Frame) (canvas : Canvas2D) (X Y : Z) :
  (0 < videoWidth video)%Z -> (0 < videoHeight video)%Z ->
  (0 <= X < videoWidth video)%Z -> (0 <= Y < videoHeight video)%Z ->
  pixel (Classic.capture_frame video canvas) X Y = mirror video X Y.
Proof.
  intros Hw Hh HX HY. unfold Classic.capture_frame, mirror.
  cbn [pixel drawImage scale set_width set_height transform width height
       identity ta td te tf].
  change (1 * -1)%Z with (-1)%Z. change (1 * 1)%Z with 1%Z.
  rewrite sample_flipped, sample_straight by assumption.
  repeat match goal with
         | |- context [(?a <=? ?b)%Z] => destruct (Z.leb_spec a b); [|lia]
         | |- context [(?a <? ?b)%Z] => destruct (Z.ltb_spec a b); [|lia]
         | |- context [(?a =? ?b)%Z] => destruct (Z.eqb_spec a b); [lia|]
         end.
  reflexivity.
Qed.

Lemma nonzero_or_pos (a b : Z) : (0 < a)%Z -> Mui.nonzero_or a b = a.
Proof.
  intros Ha. unfold Mui.nonzero_or. destruct (Z.eqb_spec a 0); [lia|reflexivity].
Qed.

Lemma mui_capture_pixels (video : Frame) (canvas : Canvas2D) (X Y : Z) :
  (0 < videoWidth video)%Z -> (0 < videoHeight video)%Z ->
  (0 <= X < videoWidth video)%Z -> (0 <= Y < videoHeight video)%Z ->
  pixel (Mui.capture_frame video canvas) X Y = mirror video X Y.
Proof.
  intros Hw Hh HX HY. unfold Mui.capture_frame, mirror.
  rewrite !nonzero_or_pos by assumption.
  cbn [pixel drawImage scale set_width set_height save restore saved
       transform width height identity ta td te tf].
  change (1 * -1)%Z with (-1)%Z. change (1 * 1)%Z with 1%Z.
  rewrite sample_flipped, sample_straight by assumption.
  repeat match goal with
         | |- context [(?a <=? ?b)%Z] => destruct (Z.leb_spec a b); [|lia]
         | |- context [(?a <? ?b)%Z] => destruct (Z.ltb_spec a b); [|lia]
         | |- context [(?a =? ?b)%Z] => destruct (Z.eqb_spec a b); [lia|]
         end.
  reflexivity.
Qed.

(** C9 (as amended): at a capture of a video frame of positive width and
    height, the hidden canvas takes the width and height of the frame and
    every pixel of it is the pixel of the frame mirrored left to right; that
    bitmap is what is encoded and becomes the preview. In the plain client
    and in the MUI one. *)
Theorem capture_is_mirror (toDataURL : Canvas2D -> string) (video : Frame)
  (seen s : State) (b : Browser) :
  (0 < videoWidth video)%Z -> (0 < videoHeight video)%Z ->
  let plain := Classic.capture_frame video (captureCanvas b) in
  let mui := Mui.capture_frame video (captureCanvas b) in
  (width plain = videoWidth video /\ height plain = videoHeight video
   /\ (forall X Y, (0 <= X < videoWidth video)%Z ->
                   (0 <= Y < videoHeight video)%Z ->
                   pixel plain X Y = mirror video X Y)
   /\ imagePreview (fst (Classic.capturePhoto toDataURL seen (Some video) (s, b)))
      = Some (toDataURL plain))
  /\ (width mui = videoWidth video /\ height mui = videoHeight video
      /\ (forall X Y, (0 <= X < videoWidth video)%Z ->
                      (0 <= Y < videoHeight video)%Z ->
                      pixel mui X Y = mirror video X Y)
      /\ imagePreview (fst (Mui.capturePhoto toDataURL seen (Some video) (s, b)))
         = Some (toDataURL mui)).
Proof.
  intros Hw Hh plain mui. split.
  - split; [reflexivity|]. split; [reflexivity|]. split.
    + intros X Y HX HY. apply classic_capture_pixels; assumption.
    + unfold Classic.capturePhoto, Classic.stopCamera.
      destruct (cameraStream seen); reflexivity.
  - split; [|split; [|split]].
    + subst mui. unfold Mui.capture_frame.
      rewrite !nonzero_or_pos by assumption. reflexivity.
    + subst mui. unfold Mui.capture_frame.
      rewrite !nonzero_or_pos by assumption. reflexivity.
    + intros X Y HX HY. apply mui_capture_pixels; assumption.
    + unfold Mui.capturePhoto, Mui.stopCamera.
      destruct (cameraStream seen); reflexivity.
Qed.

Lemma capture_is_mirror_witness :
  pixel (Classic.capture_frame Samples.two_pixels Samples.blank_canvas) 0 0 = 9%N
  /\ pixel (Mui.capture_frame Samples.two_pixels Samples.blank_canvas) 1 0 = 7%N.
Proof.
  destruct (capture_is_mirror Samples.size_only Samples.two_pixels
              initial_state initial_state Samples.idle_browser
              eq_refl eq_refl) as ((_ & _ & Hplain & _) & (_ & _ & Hmui & _)).
  split.
  - rewrite Hplain; [reflexivity | simpl; lia | simpl; lia].
  - rewrite Hmui; [reflexivity | simpl; lia | simpl; lia].
Defined.

End CaptureProps.

(* ===================================================================== *)
(** ** Properties of the camera transitions                              *)
(* ===================================================================== *)

Module CameraProps.
Import Client.

Lemma stop_all_live (stream : Stream) (b : Browser) :
  live (stop_all stream b) = live b ∖ list_to_set stream.
Proof.
  unfold stop_all. revert b.
  induction stream as [|t stream IH]; intros b; simpl.
  - rewrite difference_empty_L. reflexivity.
  - rewrite IH. simpl. apply difference_difference_l_L.
Qed.

Lemma stop_all_stops (stream : Stream) (b : Browser) (track : nat) :
  track ∈ stream -> track ∉ live (stop_all stream b).
Proof.
  intros Hin. rewrite stop_all_live, elem_of_difference, elem_of_list_to_set.
  tauto.
Qed.

(** A [stopCamera] that sees the stream stops every track of it. *)
Lemma classic_stop_sees (seen s : State) (b : Browser) (v : bool)
  (stream : Stream) (track : nat) :
  cameraStream seen = Some stream -> track ∈ stream ->
  track ∉ live (snd (Classic.stopCamera seen v (s, b))).
Proof.
  intros Hs Hin. unfold Classic.stopCamera. rewrite Hs.
  destruct v; simpl; apply stop_all_stops; assumption.
Qed.

Lemma mui_stop_sees (seen s : State) (b : Browser) (v : bool)
  (stream : Stream) (track : nat) :
  cameraStream seen = Some stream -> track ∈ stream ->
  track ∉ live (snd (Mui.stopCamera seen v (s, b))).
Proof.
  intros Hs Hin. unfold Mui.stopCamera. rewrite Hs.
  destruct v; simpl; apply stop_all_stops; assumption.
Qed.

(** The stops issued from the latest render (the Stop button, a capture, a
    URL submission, a file upload) leave no track of the current stream
    live, in both clients. *)
Lemma stop_transitions_release (toDataURL : Bitmap.Canvas2D -> string)
  (app : App) (stream : Stream) (track : nat) (ev : Event) :
  mounted app = true ->
  cameraStream (ui app) = Some stream ->
  track ∈ stream ->
  (ev = ClickStop
   \/ (exists video, ev = ClickCapture (Some video))
   \/ (ev = SubmitUrl /\ blank (imageUrl (ui app)) = false)
   \/ (exists file, ev = UploadFile (Some file))) ->
  (track ∉ live (browser (Classic.step toDataURL app ev)))
  /\ (track ∉ live (browser (Mui.step toDataURL app ev))).
Proof.
  intros Hm Hs Hin Hev.
  unfold Classic.step, Mui.step. rewrite Hm. cbn [negb].
  destruct Hev as [->|[[video ->]|[[-> Hb]|[file ->]]]]; cbn [browser].
  - split; [eapply classic_stop_sees | eapply mui_stop_sees]; eassumption.
  - unfold Classic.capturePhoto, Mui.capturePhoto. split.
    + eapply classic_stop_sees; eassumption.
    + pose proof (mui_stop_sees (ui app)
        (setImagePreview
           (Some (toDataURL (Mui.capture_frame video (captureCanvas (browser app)))))
           (setError None (setLoading true (ui app))))
        (set_captureCanvas (Mui.capture_frame video (captureCanvas (browser app)))
           (browser app)) true stream track Hs Hin) as H.
      destruct (Mui.stopCamera _ _ _). exact H.
  - unfold Classic.handleUrlSubmit, Mui.handleUrlSubmit. rewrite Hb. split.
    + eapply classic_stop_sees; eassumption.
    + pose proof (mui_stop_sees (ui app) (ui app) (browser app) true
                    stream track Hs Hin) as H.
      destruct (Mui.stopCamera _ _ _). exact H.
  - unfold Classic.handleFileUpload, Mui.handleFileUpload. split.
    + pose proof (classic_stop_sees (ui app) (ui app) (browser app)
                    (cameraActive (ui app)) stream track Hs Hin) as H.
      destruct (Classic.stopCamera _ _ _). exact H.
    + pose proof (mui_stop_sees (ui app) (ui app) (browser app) true
                    stream track Hs Hin) as H.
      destruct (Mui.stopCamera _ _ _). exact H.
Qed.

(** C8 at component teardown: the cleanup runs the [stopCamera] of the first
    render, which saw no stream, so after the camera was started and the
    component unmounts every track of the stream is still live, in both
    clients. *)
Theorem teardown_leaves_tracks_live (toDataURL : Bitmap.Canvas2D -> string)
  (b : Browser) (stream : Stream) (track : nat) :
  track ∈ stream ->
  let app := {| ui := initial_state; browser := b; mounted := true |} in
  let script := [StartCamera (Granted stream); Unmount] in
  track ∈ live (browser (Classic.run toDataURL app script))
  /\ track ∈ live (browser (Mui.run toDataURL app script))
  /\ mounted (Classic.run toDataURL app script) = false
  /\ mounted (Mui.run toDataURL app script) = false.
Proof.
  intros Hin. cbn.
  assert (track ∈ live b ∪ (list_to_set stream : gset nat))
    by (apply elem_of_union_r, elem_of_list_to_set; exact Hin).
  auto.
Qed.

Lemma teardown_leaves_tracks_live_witness :
  0%nat ∈ live (browser (Classic.run Samples.size_only Samples.fresh_app
                          [StartCamera (Granted [0%nat]); Unmount]))
  /\ 0%nat ∈ live (browser (Mui.run Samples.size_only Samples.fresh_app
                             [StartCamera (Granted [0%nat]); Unmount])).
Proof.
  destruct (teardown_leaves_tracks_live Samples.size_only Samples.idle_browser
              [0%nat] 0%nat) as (Hplain & Hmui & _).
  - apply list_elem_of_singleton. reflexivity.
  - split; [exact Hplain | exact Hmui].
Defined.

End CameraProps.

(* ===================================================================== *)
(** ** Worked examples for the client                                    *)
(* ===================================================================== *)

Module ClientExamples.
Import Canvas Client Samples.

(** One face at (10, 20, 100, 120): one rectangle there, labelled "Face 1". *)
Lemma render_draws_each_face_witness :
  rectangles (Mui.render 1 1280 "dark" preview [face_at_10_20])
  = [(10, 20, 100, 120)%Q]
  /\ labels (Mui.render 1 1280 "dark" preview [face_at_10_20]) = ["Face 1"]
  /\ labels (fst (Classic.drawFaceBoxes (Some preview) true [face_at_10_20]))
     = ["Face 1"].
Proof.
  destruct (RenderProps.render_draws_each_face [face_at_10_20] preview
              1 1280 "dark") as ((_ & _ & _ & Hplain) & (_ & Hrect & Hmui)).
  - constructor; [eexists; reflexivity | constructor].
  - split; [|split].
    + apply (inj (fmap Some)). rewrite Hrect. reflexivity.
    + rewrite Hmui. reflexivity.
    + rewrite Hplain. reflexivity.
Defined.

(** C4 as stated fails in the plain client: with an empty result
    [drawFaceBoxes] paints nothing, not even the preview image. *)
Lemma plain_client_paints_nothing :
  let s := Classic.on_detect_done FromUrl (Detected []) initial_state in
  faces s = []
  /\ fst (Classic.drawFaceBoxes (Some preview) true (faces s)) = []
  /\ ~ In (src preview)
          (images (fst (Classic.drawFaceBoxes (Some preview) true (faces s)))).
Proof.
  cbn. repeat split. intros [].
Qed.

End ClientExamples.

(* ===================================================================== *)
(** ** Further properties of the proxy                                   *)
(* ===================================================================== *)

Module ProxyMoreProps.
Import JS Server.

Local Abbreviation marker := "base64,".
Local Abbreviation comma_free s := (~ In ","%char (list_ascii_of_string s)).

Lemma strip_trailing_slash_app (e : string) :
  strip_trailing_slash (e +:+ "/") = e.
Proof.
  induction e as [|c e IH]; [reflexivity|].
  change (String c e +:+ "/") with (String c (e +:+ "/")).
  cbn [strip_trailing_slash]. rewrite IH.
  destruct e; reflexivity.
Qed.

Lemma strip_trailing_slash_id (e : string) :
  (forall e', e <> e' +:+ "/") -> strip_trailing_slash e = e.
Proof.
  induction e as [|c e IH]; intros Hno; [reflexivity|].
  cbn [strip_trailing_slash]. destruct e as [|c' e].
  - destruct (Ascii.eqb_spec c "/") as [->|]; [|reflexivity].
    exfalso. apply (Hno ""). reflexivity.
  - f_equal. apply IH. intros e' He'. apply (Hno (String c e')).
    rewrite He'. reflexivity.
Qed.

(** X1: one trailing slash of the configured endpoint is dropped and no
    more, so an endpoint written with or without it yields the same
    request URL. *)
Theorem endpoint_slash_normalised (e key : string) :
  azure_url {| AZURE_ENDPOINT := e +:+ "/"; AZURE_KEY := key |}
  = e +:+ "/face/v1.0/detect"
  /\ ((forall e', e <> e' +:+ "/") ->
      azure_url {| AZURE_ENDPOINT := e; AZURE_KEY := key |}
      = e +:+ "/face/v1.0/detect").
Proof.
  unfold azure_url. cbn [AZURE_ENDPOINT]. split.
  - rewrite strip_trailing_slash_app. reflexivity.
  - intros Hno. rewrite strip_trailing_slash_id by assumption. reflexivity.
Qed.

Lemma endpoint_slash_normalised_witness :
  azure_url {| AZURE_ENDPOINT := "https://x.example"; AZURE_KEY := "k" |}
  = azure_url {| AZURE_ENDPOINT := "https://x.example/"; AZURE_KEY := "k" |}.
Proof.
  destruct (endpoint_slash_normalised "https://x.example" "k") as [Hs Hn].
  rewrite Hn.
  - symmetry. exact Hs.
  - intros e' He'.
    assert (Hlast : forall a b : string,
               a = b -> String.get (String.length a - 1) a
                        = String.get (String.length b - 1) b)
      by (intros a b ->; reflexivity).
    apply Hlast in He'. revert He'.
    change (String.get _ "https://x.example") with (Some "e"%char).
    clear. induction e' as [|c e' IH]; [discriminate|].
    destruct e' as [|c' e'']; [discriminate|].
    intros H. apply IH. rewrite H. simpl.
    rewrite !Nat.sub_0_r. reflexivity.
Defined.

Section Handler.

Variable base64_decode : string -> list Byte.byte.
Variable bytes_of_array : list value -> list Byte.byte.
Variable service : RequestConfig -> AxiosResult.
Variable consts : Config.

Local Abbreviation handle := (detect_faces base64_decode bytes_of_array service consts).
Local Abbreviation reply := (Server.reply base64_decode bytes_of_array service consts).
Local Abbreviation calls := (Server.calls base64_decode bytes_of_array service consts).

Lemma non_text_inline_outcome (u d : value) :
  truthy u = false ->
  match d with
  | JNum n => n <> 0%Z
  | JBool b => b = true
  | JObj _ => True
  | JArr items => In (JStr marker) items
  | _ => False
  end ->
  exists msg,
    handle {| imageUrl := u; imageData := d |} = (on_error (TypeError msg), []).
Proof.
  intros Hu Hd. unfold detect_faces, detect_faces_try, try_catch.
  cbn [imageUrl imageData]. rewrite Hu.
  destruct d as [| |b|n|s|items|fields]; try contradiction.
  - subst b. cbn. eauto.
  - assert (Hn : truthy (JNum n) = true)
      by (simpl; destruct (Z.eqb_spec n 0); [contradiction|reflexivity]).
    rewrite Hn. cbn. eauto.
  - assert (He : existsb (fun x => strict_eq_str x marker) items = true).
    { apply existsb_exists. exists (JStr marker). split; [exact Hd|reflexivity]. }
    cbn [truthy negb andb]. unfold includes.
    unfold mbind at 1. unfold M_bind at 1. unfold lift at 1.
    unfold mbind at 1. unfold M_bind at 1. unfold lift at 1.
    rewrite He. cbn. eauto.
  - cbn. eauto.
Qed.

(** X2: a value of [imageData] that is neither falsy, a string nor an array
    (a non-zero number, [true], an object), or an array holding the marker
    string, makes the handler throw before any call: the answer is 500 with
    the code ['Unknown'] and no suggestion. *)
Theorem non_text_inline_fails (u d : value) :
  truthy u = false ->
  match d with
  | JNum n => n <> 0%Z
  | JBool b => b = true
  | JObj _ => True
  | JArr items => In (JStr marker) items
  | _ => False
  end ->
  status (reply {| imageUrl := u; imageData := d |}) = 500
  /\ get (json (reply {| imageUrl := u; imageData := d |})) "code" = JStr "Unknown"
  /\ get (json (reply {| imageUrl := u; imageData := d |})) "suggestion" = JStr ""
  /\ calls {| imageUrl := u; imageData := d |} = [].
Proof.
  intros Hu Hd.
  destruct (non_text_inline_outcome u d Hu Hd) as [msg Hout].
  unfold Server.reply, Server.calls. rewrite Hout.
  cbn. auto.
Qed.

(** X3: when the service answers a forwarded request with success and the
    body [null], the handler fails while logging the face count and answers
    500 with the code ['Unknown'] and no details, although the call went
    through; an empty body, which reaches the handler as the empty string,
    is relayed with status 200. *)
Theorem null_success_becomes_500 (body : Body) (rc : RequestConfig) :
  In rc (calls body) ->
  (service rc = Resolved JNull ->
   status (reply body) = 500
   /\ get (json (reply body)) "code" = JStr "Unknown"
   /\ get (json (reply body)) "details" = JUndefined
   /\ calls body = [rc])
  /\ (service rc = Resolved (JStr "") ->
      reply body = {| status := 200; json := JStr "" |}).
Proof.
  intros Hin.
  destruct (ServerProps.calls_cases base64_decode bytes_of_array service
              consts body rc Hin) as [Hc Hr].
  rewrite Hr, Hc. unfold after_call.
  split; intros ->; cbn; auto.
Qed.

(** Every call the handler makes has the same envelope. *)
Lemma call_envelope (body : Body) (rc : RequestConfig) :
  In rc (calls body) ->
  method rc = "POST"
  /\ url rc = azure_url consts
  /\ subscription_key rc = AZURE_KEY consts
  /\ params rc = detect_params.
Proof.
  destruct body as [u d]. unfold Server.calls.
  destruct (truthy u) eqn:Hu.
  - rewrite (ServerProps.url_branch base64_decode bytes_of_array service
               consts u d Hu). intros [<-|[]]. cbn. auto.
  - destruct (truthy d) eqn:Hd.
    + destruct d as [| |b|n|s|items|fields]; try discriminate.
      * destruct (non_text_inline_outcome u (JBool b) Hu) as [msg Hc];
          [exact Hd|]. rewrite Hc. intros [].
      * destruct (non_text_inline_outcome u (JNum n) Hu) as [msg Hc].
        { simpl in Hd. destruct (Z.eqb_spec n 0); [discriminate|assumption]. }
        rewrite Hc. intros [].
      * assert (Hs : s <> "") by (apply ServerProps.truthy_str; exact Hd).
        rewrite (ServerProps.inline_branch base64_decode bytes_of_array
                   service consts u s Hu Hs).
        repeat match goal with
               | |- context [if ?c then _ else _] => destruct c
               end; cbn [snd]; intros Hin; simpl in Hin;
          (contradiction || (destruct Hin as [<-|[]]; cbn; auto)).
      * unfold detect_faces, detect_faces_try, try_catch.
        cbn [imageUrl imageData]. rewrite Hu. cbn [truthy negb andb].
        unfold includes.
        unfold mbind at 1. unfold M_bind at 1. unfold lift at 1.
        unfold mbind at 1. unfold M_bind at 1. unfold lift at 1.
        destruct (existsb _ items); [cbn; intros []|].
        unfold lift, mret, M_ret, mbind, M_bind, axios. cbn [Buffer_from].
        repeat match goal with
               | |- context [if ?c then _ else _] => destruct c
               end;
          try (destruct (service _) as [v|e]; [destruct (length_of v)|]);
          cbn [snd app]; intros Hin; simpl in Hin;
          (contradiction || (destruct Hin as [<-|[]]; cbn; auto)).
      * destruct (non_text_inline_outcome u (JObj fields) Hu I) as [msg Hc].
        rewrite Hc. intros [].
    + rewrite (ServerProps.neither_branch base64_decode bytes_of_array
                 service consts u d Hu Hd). intros [].
Qed.

(** X5: one request to POST /api/detect-faces makes at most one call to
    the service; when it makes one, the answer is decided by the outcome of
    that call. *)
Theorem one_call_per_request (body : Body) :
  (length (calls body) <= 1)%nat
  /\ (forall rc, In rc (calls body) ->
      calls body = [rc] /\ reply body = after_call service rc).
Proof.
  split.
  - unfold Server.calls.
    destruct (ServerProps.detect_faces_cases base64_decode bytes_of_array
                service consts body) as [[r H]|[rc H]]; rewrite H; simpl; lia.
  - intros rc Hin.
    apply (ServerProps.calls_cases base64_decode bytes_of_array service
             consts body rc Hin).
Qed.

End Handler.

Lemma non_text_inline_fails_witness :
  status (Server.reply Node.base64_decode Node.bytes_of_array
            Samples.finds_one_face Samples.consts MoreSamples.numeric_inline) = 500
  /\ Server.calls Node.base64_decode Node.bytes_of_array
       Samples.finds_one_face Samples.consts MoreSamples.numeric_inline = [].
Proof.
  destruct (non_text_inline_fails Node.base64_decode Node.bytes_of_array
              Samples.finds_one_face Samples.consts JUndefined (JNum 5) eq_refl)
    as (H500 & _ & _ & Hnone).
  - discriminate.
  - split; [exact H500 | exact Hnone].
Defined.

Lemma null_success_becomes_500_witness :
  status (Server.reply Node.base64_decode Node.bytes_of_array
            MoreSamples.answers_null Samples.consts Samples.url_only) = 500
  /\ status (Server.reply Node.base64_decode Node.bytes_of_array
               MoreSamples.answers_empty Samples.consts Samples.url_only) = 200.
Proof.
  split.
  - apply (null_success_becomes_500 Node.base64_decode Node.bytes_of_array
             MoreSamples.answers_null Samples.consts Samples.url_only
             (url_request Samples.consts (imageUrl Samples.url_only)));
      [left|]; reflexivity.
  - destruct (null_success_becomes_500 Node.base64_decode Node.bytes_of_array
                MoreSamples.answers_empty Samples.consts Samples.url_only
                (url_request Samples.consts (imageUrl Samples.url_only)))
      as [_ H]; [left; reflexivity|].
    rewrite H; reflexivity.
Defined.

(** X4: every call that POST /api/detect-faces makes, in a process that came
    up listening, is a POST to the URL built from the endpoint that was in
    the environment at startup, carries the key that was in the environment
    at startup, and has the fixed query. *)
Theorem detect_calls_use_boot_configuration
  (base64_decode : string -> list Byte.byte)
  (bytes_of_array : list value -> list Byte.byte)
  (service : RequestConfig -> AxiosResult)
  (env : Env) (port : value) (consts : Config)
  (body : Body) (rc : RequestConfig) :
  startup env = Listening port consts ->
  In rc (Server.calls base64_decode bytes_of_array service consts body) ->
  exists endpoint key,
    env !! "AZURE_FACE_ENDPOINT" = Some endpoint
    /\ env !! "AZURE_FACE_KEY" = Some key
    /\ method rc = "POST"
    /\ url rc = strip_trailing_slash endpoint +:+ "/face/v1.0/detect"
    /\ subscription_key rc = key
    /\ params rc = detect_params.
Proof.
  intros Hup Hin.
  destruct (LifecycleProps.startup_listening env port consts Hup)
    as (He & Hk & _ & _).
  destruct (call_envelope base64_decode bytes_of_array service consts
              body rc Hin) as (Hm & Hu & Hs & Hp).
  exists (AZURE_ENDPOINT consts), (AZURE_KEY consts).
  unfold azure_url in Hu. auto 10.
Qed.

Lemma detect_calls_use_boot_configuration_witness :
  Forall (fun rc =>
            url rc = "https://vision.cognitiveservices.azure.com/face/v1.0/detect"
            /\ subscription_key rc = "0123456789abcdef")
    (Server.calls Node.base64_decode Node.bytes_of_array
       Samples.finds_one_face Samples.consts Samples.url_only).
Proof.
  apply List.Forall_forall. intros rc Hin.
  destruct (detect_calls_use_boot_configuration Node.base64_decode
              Node.bytes_of_array Samples.finds_one_face Samples.full_env
              (JNum 3001) Samples.consts Samples.url_only rc eq_refl Hin)
    as (endpoint & key & He & Hk & _ & Hu & Hs & _).
  vm_compute in He, Hk.
  injection He as <-. injection Hk as <-.
  split; [rewrite Hu; reflexivity | exact Hs].
Defined.

Lemma one_call_per_request_witness :
  length (Server.calls Node.base64_decode Node.bytes_of_array
            Samples.finds_one_face Samples.consts Samples.url_only) = 1%nat
  /\ Server.reply Node.base64_decode Node.bytes_of_array
       Samples.finds_one_face Samples.consts Samples.url_only
     = {| status := 200; json := Samples.one_face |}.
Proof.
  destruct (one_call_per_request Node.base64_decode Node.bytes_of_array
              Samples.finds_one_face Samples.consts Samples.url_only)
    as [_ H].
  destruct (H (url_request Samples.consts (imageUrl Samples.url_only)))
    as [Hc Hr]; [left; reflexivity|].
  rewrite Hc, Hr. split; reflexivity.
Defined.

End ProxyMoreProps.

(* ===================================================================== *)
(** ** The data-URL prefix                                               *)
(* ===================================================================== *)

Module InlineTextProps.
Import JS Server.

Local Abbreviation marker := "base64,".
Local Abbreviation comma_free s := (~ In ","%char (list_ascii_of_string s)).

Lemma substring_whole (s : string) :
  String.substring 0 (String.length s) s = s.
Proof. induction s as [|c s IH]; simpl; [reflexivity|]. rewrite IH. reflexivity. Qed.

Lemma after_first_cons (sep : string) (c : ascii) (s : string) :
  String.prefix sep (String c s) = false ->
  after_first sep (String c s) = after_first sep s.
Proof. intros H. cbn [after_first]. rewrite H. reflexivity. Qed.

Lemma before_first_cons (sep : string) (c : ascii) (s : string) :
  String.prefix sep (String c s) = false ->
  before_first sep (String c s) = String c (before_first sep s).
Proof. intros H. cbn [before_first]. rewrite H. reflexivity. Qed.

Ltac next_char H s :=
  simpl in H;
  match type of H with
  | (if ?d then _ else _) = true => destruct d as [<-|]; [|discriminate H]
  end.

(** The marker ends in a comma: a text that starts with it holds one. *)
Lemma prefix_needs_comma (s : string) :
  String.prefix marker s = true -> In ","%char (list_ascii_of_string s).
Proof.
  intros H.
  do 7 (destruct s as [|? s]; [discriminate H|]; next_char H s).
  simpl. auto 10.
Qed.

(** The marker does not start inside a comma-free text that precedes it. *)
Lemma prefix_before_marker (m rest : string) :
  m <> "" -> comma_free m ->
  String.prefix marker (m +:+ marker +:+ rest) = false.
Proof.
  intros Hne Hcf.
  destruct (String.prefix marker (m +:+ marker +:+ rest)) eqn:H; [|reflexivity].
  exfalso. destruct m as [|c m]; [congruence|].
  next_char H m.
  do 6 (destruct m as [|? m]; [simpl in H; discriminate H|]; next_char H m).
  apply Hcf. simpl. auto 10.
Qed.

Lemma comma_free_cons (c : ascii) (s : string) :
  comma_free (String c s) -> comma_free s.
Proof. intros H Hin. apply H. simpl. auto. Qed.

Lemma prefix_at_marker (p : string) :
  String.prefix marker (String "b" ("ase64," +:+ p)) = true.
Proof. simpl. destruct p; reflexivity. Qed.

Lemma after_first_marker (m p : string) :
  comma_free m -> after_first marker (m +:+ marker +:+ p) = Some p.
Proof.
  induction m as [|c m IH]; intros Hcf.
  - change ("" +:+ marker +:+ p) with (String "b" ("ase64," +:+ p)).
    cbn [after_first]. rewrite prefix_at_marker. simpl.
    rewrite Nat.sub_0_r, substring_whole. reflexivity.
  - change (String c m +:+ marker +:+ p) with (String c (m +:+ marker +:+ p)).
    rewrite after_first_cons.
    + apply IH. eapply comma_free_cons; eassumption.
    + apply (prefix_before_marker (String c m) p); [discriminate|assumption].
Qed.

Lemma before_first_marker (p rest : string) :
  comma_free p -> before_first marker (p +:+ marker +:+ rest) = p.
Proof.
  induction p as [|c p IH]; intros Hcf.
  - change ("" +:+ marker +:+ rest) with (String "b" ("ase64," +:+ rest)).
    cbn [before_first]. rewrite prefix_at_marker. reflexivity.
  - change (String c p +:+ marker +:+ rest)
      with (String c (p +:+ marker +:+ rest)).
    rewrite before_first_cons.
    + f_equal. apply IH. eapply comma_free_cons; eassumption.
    + apply (prefix_before_marker (String c p) rest); [discriminate|assumption].
Qed.

Lemma prefix_plain (p : string) :
  comma_free p -> String.prefix marker p = false.
Proof.
  intros Hcf. destruct (String.prefix marker p) eqn:H; [|reflexivity].
  exfalso. apply Hcf, prefix_needs_comma, H.
Qed.

Lemma after_first_plain (p : string) :
  comma_free p -> after_first marker p = None.
Proof.
  induction p as [|c p IH]; intros Hcf; [reflexivity|].
  rewrite after_first_cons by (apply prefix_plain; assumption).
  apply IH. eapply comma_free_cons; eassumption.
Qed.

Lemma before_first_plain (p : string) :
  comma_free p -> before_first marker p = p.
Proof.
  induction p as [|c p IH]; intros Hcf; [reflexivity|].
  rewrite before_first_cons by (apply prefix_plain; assumption).
  f_equal. apply IH. eapply comma_free_cons; eassumption.
Qed.

Lemma inline_text_plain (p : string) : comma_free p -> inline_text p = p.
Proof.
  intros Hcf. unfold inline_text, str_includes.
  rewrite after_first_plain by assumption. reflexivity.
Qed.

Lemma inline_text_data_url (m p : string) :
  comma_free m -> comma_free p -> inline_text (m +:+ marker +:+ p) = p.
Proof.
  intros Hm Hp. unfold inline_text, str_includes.
  rewrite after_first_marker by assumption. simpl.
  apply before_first_plain. assumption.
Qed.

Lemma inline_text_two_markers (m p q : string) :
  comma_free m -> comma_free p ->
  inline_text (m +:+ marker +:+ p +:+ marker +:+ q) = p.
Proof.
  intros Hm Hp. unfold inline_text, str_includes.
  rewrite after_first_marker by assumption. simpl.
  apply before_first_marker. assumption.
Qed.

Lemma nonempty_app (m s : string) : s <> "" -> m +:+ s <> "".
Proof. destruct m; simpl; [auto|discriminate]. Qed.

Section Handler.

Variable base64_decode : string -> list Byte.byte.
Variable bytes_of_array : list value -> list Byte.byte.
Variable service : RequestConfig -> AxiosResult.
Variable consts : Config.

Local Abbreviation handle := (detect_faces base64_decode bytes_of_array service consts).

Lemma same_text_same_outcome (u : value) (s t : string) :
  truthy u = false -> s <> "" -> t <> "" -> inline_text s = inline_text t ->
  handle {| imageUrl := u; imageData := JStr s |}
  = handle {| imageUrl := u; imageData := JStr t |}.
Proof.
  intros Hu Hs Ht Heq.
  rewrite !ServerProps.inline_branch by assumption.
  unfold decoded_length. rewrite Heq. reflexivity.
Qed.

(** X6: an inline image sent as a data URL ([<scheme and type>base64,<text>],
    with no comma before the marker nor in the text) is handled exactly as
    the bare base64 text would be: same answer, same call. *)
Theorem data_url_same_as_bare_text (u : value) (m p : string) :
  truthy u = false -> p <> "" -> comma_free m -> comma_free p ->
  handle {| imageUrl := u; imageData := JStr (m +:+ marker +:+ p) |}
  = handle {| imageUrl := u; imageData := JStr p |}.
Proof.
  intros Hu Hp Hm Hcf. apply same_text_same_outcome; try assumption.
  - apply nonempty_app. discriminate.
  - rewrite inline_text_data_url, inline_text_plain by assumption. reflexivity.
Qed.

(** X7: when the marker [base64,] occurs a second time, only the text
    between the first and the second occurrence is decoded; whatever follows
    the second marker has no effect on the answer or on the call. *)
Theorem text_after_second_marker_ignored (u : value) (m p q : string) :
  truthy u = false -> p <> "" -> comma_free m -> comma_free p ->
  handle {| imageUrl := u;
            imageData := JStr (m +:+ marker +:+ p +:+ marker +:+ q) |}
  = handle {| imageUrl := u; imageData := JStr p |}.
Proof.
  intros Hu Hp Hm Hcf. apply same_text_same_outcome; try assumption.
  - apply nonempty_app. discriminate.
  - rewrite inline_text_two_markers, inline_text_plain by assumption.
    reflexivity.
Qed.

End Handler.

Lemma comma_free_sample (s : string) :
  forallb (fun c => negb (Ascii.eqb c ",")) (list_ascii_of_string s) = true ->
  comma_free s.
Proof.
  intros H Hin. rewrite forallb_forall in H. specialize (H _ Hin).
  rewrite Ascii.eqb_refl in H. discriminate.
Qed.

Lemma data_url_same_as_bare_text_witness :
  detect_faces Node.base64_decode Node.bytes_of_array Samples.finds_one_face
    Samples.consts
    {| imageUrl := JUndefined; imageData := JStr "data:image/jpeg;base64,AAAA" |}
  = detect_faces Node.base64_decode Node.bytes_of_array Samples.finds_one_face
      Samples.consts {| imageUrl := JUndefined; imageData := JStr "AAAA" |}.
Proof.
  apply (data_url_same_as_bare_text Node.base64_decode Node.bytes_of_array
           Samples.finds_one_face Samples.consts JUndefined
           "data:image/jpeg;" "AAAA").
  - reflexivity.
  - discriminate.
  - apply comma_free_sample. reflexivity.
  - apply comma_free_sample. reflexivity.
Defined.

Lemma text_after_second_marker_ignored_witness :
  detect_faces Node.base64_decode Node.bytes_of_array Samples.finds_one_face
    Samples.consts
    {| imageUrl := JUndefined;
       imageData := JStr "data:image/jpeg;base64,AAAAbase64,BBBBBBBB" |}
  = detect_faces Node.base64_decode Node.bytes_of_array Samples.finds_one_face
      Samples.consts {| imageUrl := JUndefined; imageData := JStr "AAAA" |}.
Proof.
  apply (text_after_second_marker_ignored Node.base64_decode
           Node.bytes_of_array Samples.finds_one_face Samples.consts JUndefined
           "data:image/jpeg;" "AAAA" "BBBBBBBB").
  - reflexivity.
  - discriminate.
  - apply comma_free_sample. reflexivity.
  - apply comma_free_sample. reflexivity.
Defined.

End InlineTextProps.

(* ===================================================================== *)
(** ** Properties of the health and self-test routes                     *)
(* ===================================================================== *)

Module RouteProps.
Import JS Server Routes.

(** X8: a process that passed the startup check always answers the health
    route with 200 and [azureConfigured: true], and reports the endpoint
    exactly as read at boot: the flag can never come out false. *)
Theorem health_always_configured (env : Env) (port : value) (consts : Config) :
  startup env = Listening port consts ->
  status (health consts) = 200
  /\ get (json (health consts)) "azureConfigured" = JBool true
  /\ (exists endpoint,
        env !! "AZURE_FACE_ENDPOINT" = Some endpoint
        /\ get (json (health consts)) "endpoint" = JStr endpoint).
Proof.
  intros Hs.
  destruct (LifecycleProps.startup_listening env port consts Hs)
    as (He & _ & Hne & Hnk).
  split; [reflexivity|]. split.
  - cbn. unfold and_then.
    apply ServerProps.truthy_str in Hne. apply ServerProps.truthy_str in Hnk.
    rewrite Hne, Hnk. reflexivity.
  - exists (AZURE_ENDPOINT consts). split; [exact He|reflexivity].
Qed.

Lemma health_always_configured_witness :
  get (json (health Samples.consts)) "azureConfigured" = JBool true.
Proof.
  apply (health_always_configured Samples.full_env (JNum 3001) Samples.consts).
  reflexivity.
Defined.

(** X9: the self-test route makes exactly one call, to the detect URL with
    the boot credential, for the fixed sample image and asking for face
    ids. If the call fails the answer is always 500, the service's own
    status being passed on only inside the body as [statusCode]; if it
    succeeds with an array, the answer is 200 with the number of its
    records. *)
Theorem self_test_outcomes (service : RequestConfig -> AxiosResult)
  (consts : Config) :
  snd (test_azure service consts) = [test_request consts]
  /\ params (test_request consts) = [("returnFaceId", "true")]
  /\ (forall e, service (test_request consts) = Rejected e ->
        status (fst (test_azure service consts)) = 500
        /\ get (json (fst (test_azure service consts))) "success" = JBool false
        /\ get (json (fst (test_azure service consts))) "statusCode"
           = match response e with
             | Some r => JNum (reply_status r)
             | None => JUndefined
             end)
  /\ (forall records, service (test_request consts) = Resolved (JArr records) ->
        status (fst (test_azure service consts)) = 200
        /\ get (json (fst (test_azure service consts))) "facesDetected"
           = JNum (Z.of_nat (length records))).
Proof.
  unfold test_azure, try_catch, axios, mbind, M_bind, lift, mret, M_ret.
  cbn [app].
  destruct (service (test_request consts)) as [d|e] eqn:Hs.
  - split; [destruct (js_length d); reflexivity|].
    split; [reflexivity|]. split; [intros e [=]|].
    intros records [= ->]. cbn. auto.
  - split; [reflexivity|]. split; [reflexivity|]. split; [|intros r [=]].
    intros e' [= <-]. cbn. auto.
Qed.

Lemma self_test_outcomes_witness :
  status (fst (test_azure Samples.refuses Samples.consts)) = 500
  /\ get (json (fst (test_azure Samples.refuses Samples.consts))) "statusCode"
     = JNum 401.
Proof.
  destruct (self_test_outcomes Samples.refuses Samples.consts)
    as (_ & _ & Hfail & _).
  destruct (Hfail Samples.unauthorized eq_refl) as (H500 & _ & Hcode).
  split; [exact H500 | exact Hcode].
Defined.

End RouteProps.

(* ===================================================================== *)
(** ** Further properties of the render step                             *)
(* ===================================================================== *)

Module RenderMoreProps.
Import Canvas Client Views.

Lemma markers_app (a b : list Call) :
  markers (a ++ b) = (markers a ++ markers b)%list.
Proof.
  induction a as [|c a IH]; [reflexivity|].
  destruct c; simpl; rewrite ?IH; reflexivity.
Qed.

Lemma anchors_app (a b : list Call) :
  label_anchors (a ++ b) = (label_anchors a ++ label_anchors b)%list.
Proof.
  induction a as [|c a IH]; [reflexivity|].
  destruct c; simpl; rewrite ?IH; reflexivity.
Qed.

Lemma classic_point (p : option Point) :
  markers (Classic.draw_point p) = marker_at p
  /\ label_anchors (Classic.draw_point p) = [].
Proof. destruct p; auto. Qed.

Lemma mui_point (p : option Point) :
  markers (Mui.drawPoint p) = marker_at p
  /\ label_anchors (Mui.drawPoint p) = [].
Proof. destruct p; auto. Qed.

Ltac views :=
  cbn [app rectangles labels images markers label_anchors];
  rewrite ?RenderProps.rectangles_app, ?RenderProps.labels_app,
    ?RenderProps.images_app, ?markers_app, ?anchors_app;
  repeat match goal with
         | |- context [rectangles (Classic.draw_point ?p)] =>
             rewrite (proj1 (RenderProps.draw_point_plain p))
         | |- context [labels (Classic.draw_point ?p)] =>
             rewrite (proj1 (proj2 (RenderProps.draw_point_plain p)))
         | |- context [images (Classic.draw_point ?p)] =>
             rewrite (proj2 (proj2 (RenderProps.draw_point_plain p)))
         | |- context [rectangles (Mui.drawPoint ?p)] =>
             rewrite (proj1 (RenderProps.drawPoint_plain p))
         | |- context [labels (Mui.drawPoint ?p)] =>
             rewrite (proj1 (proj2 (RenderProps.drawPoint_plain p)))
         | |- context [images (Mui.drawPoint ?p)] =>
             rewrite (proj2 (proj2 (RenderProps.drawPoint_plain p)))
         | |- context [markers (Classic.draw_point ?p)] =>
             rewrite (proj1 (classic_point p))
         | |- context [label_anchors (Classic.draw_point ?p)] =>
             rewrite (proj2 (classic_point p))
         | |- context [markers (Mui.drawPoint ?p)] =>
             rewrite (proj1 (mui_point p))
         | |- context [label_anchors (Mui.drawPoint ?p)] =>
             rewrite (proj2 (mui_point p))
         end;
  cbn [app rectangles labels images markers label_anchors].

(** What one iteration of the MUI loop contributes to each view. *)
Lemma mui_face_views (mode : string) (idx : nat) (face : Face) :
  rectangles (Mui.draw_face mode idx face)
  = match reported face with Some r => [r] | None => [] end
  /\ labels (Mui.draw_face mode idx face)
     = match faceRectangle face with Some _ => [face_label idx] | None => [] end
  /\ images (Mui.draw_face mode idx face) = []
  /\ markers (Mui.draw_face mode idx face) = face_markers face
  /\ Forall (fun a => (20 <= snd a)%Q) (label_anchors (Mui.draw_face mode idx face)).
Proof.
  unfold Mui.draw_face, reported, face_markers.
  destruct (faceRectangle face) as [rect|]; [|cbn; auto].
  views. repeat split.
  - destruct (faceLandmarks face) as [lm|]; cbn; [|reflexivity].
    unfold landmark_markers. rewrite !app_nil_r || reflexivity.
  - repeat constructor. cbn [snd]. unfold Qmax'.
    destruct (Qle_bool 20 (top rect - 8)) eqn:H.
    + apply Qle_bool_iff. exact H.
    + apply Qle_refl.
Qed.

Lemma mui_forEach_views (mode : string) (faces : list Face) (idx : nat) :
  rectangles (Mui.forEach mode idx faces) = omap reported faces
  /\ labels (Mui.forEach mode idx faces) = kept_labels idx faces
  /\ images (Mui.forEach mode idx faces) = []
  /\ markers (Mui.forEach mode idx faces) = concat (face_markers <$> faces)
  /\ Forall (fun a => (20 <= snd a)%Q) (label_anchors (Mui.forEach mode idx faces)).
Proof.
  revert idx. induction faces as [|face faces IH]; intros idx.
  - cbn. auto.
  - destruct (mui_face_views mode idx face) as (Hr & Hl & Hi & Hm & Ha).
    destruct (IH (S idx)) as (Hr' & Hl' & Hi' & Hm' & Ha').
    cbn [Mui.forEach].
    rewrite RenderProps.rectangles_app, RenderProps.labels_app,
      RenderProps.images_app, markers_app, anchors_app.
    rewrite Hr, Hl, Hi, Hm, Hr', Hl', Hi', Hm'.
    repeat split.
    + cbn [omap list_omap]. unfold reported.
      destruct (faceRectangle face); reflexivity.
    + cbn [kept_labels]. destruct (faceRectangle face); reflexivity.
    + apply Forall_app. split; assumption.
Qed.

(** X10: the MUI render step strokes the rectangle of every record that has
    one and skips, without failing, those that have none; a label keeps the
    number of its record's place in the list, so the numbers of skipped
    records are left out. *)
Theorem mui_render_skips_rectless (devicePixelRatio innerWidth : Q)
  (mode : string) (img : Img) (faces : list Face) :
  rectangles (Mui.render devicePixelRatio innerWidth mode img faces)
  = omap reported faces
  /\ labels (Mui.render devicePixelRatio innerWidth mode img faces)
     = kept_labels 0 faces.
Proof.
  unfold Mui.render.
  destruct (mui_forEach_views mode faces 0) as (Hr & Hl & _).
  rewrite RenderProps.rectangles_app, RenderProps.labels_app, Hr, Hl.
  split; reflexivity.
Qed.

(** X11: the landmark markers the MUI render step draws are exactly the
    points present among the five named landmarks (both pupils, nose tip,
    both mouth corners) of each record that has a rectangle, in that order,
    each a full circle of radius 3. *)
Theorem mui_render_markers (devicePixelRatio innerWidth : Q)
  (mode : string) (img : Img) (faces : list Face) :
  markers (Mui.render devicePixelRatio innerWidth mode img faces)
  = concat (face_markers <$> faces).
Proof.
  unfold Mui.render.
  destruct (mui_forEach_views mode faces 0) as (_ & _ & _ & Hm & _).
  rewrite markers_app, Hm. reflexivity.
Qed.

(** X12: every label the MUI render step writes is anchored at y >= 20,
    however close to the top edge the face is. *)
Theorem mui_labels_stay_on_canvas (devicePixelRatio innerWidth : Q)
  (mode : string) (img : Img) (faces : list Face) :
  Forall (fun a => (20 <= snd a)%Q)
    (label_anchors (Mui.render devicePixelRatio innerWidth mode img faces)).
Proof.
  unfold Mui.render.
  destruct (mui_forEach_views mode faces 0) as (_ & _ & _ & _ & Ha).
  rewrite anchors_app. cbn [label_anchors app]. exact Ha.
Qed.

Lemma resets_app (a b : list Call) :
  resets (a ++ b) = (resets a ++ resets b)%list.
Proof.
  induction a as [|c a IH]; [reflexivity|].
  destruct c; cbn [resets app]; rewrite ?IH; reflexivity.
Qed.

Lemma mui_forEach_no_reset (mode : string) (faces : list Face) (idx : nat) :
  resets (Mui.forEach mode idx faces) = [].
Proof.
  revert idx. induction faces as [|face faces IH]; intros idx; [reflexivity|].
  cbn [Mui.forEach]. rewrite resets_app, IH, app_nil_r.
  unfold Mui.draw_face. destruct (faceRectangle face); [|reflexivity].
  rewrite !resets_app. unfold Mui.drawPoint.
  destruct (pupilLeft _), (pupilRight _), (noseTip _), (mouthLeft _),
    (mouthRight _); reflexivity.
Qed.

(** X13: the MUI render step first sizes the canvas to the image times the
    pixel ratio, sets the transform to that ratio and clears the whole
    canvas, then paints the preview image once, and only then the
    rectangles, labels and markers: nothing after the image resizes, clears
    or re-transforms the canvas or paints an image, so the overlays are
    never painted over. *)
Theorem mui_image_under_overlays (devicePixelRatio innerWidth : Q)
  (mode : string) (img : Img) (faces : list Face) :
  let ratio := if Qeq_bool devicePixelRatio 0 then 1%Q else devicePixelRatio in
  let calls := Mui.render devicePixelRatio innerWidth mode img faces in
  exists style_width style_height after,
    calls
    = ([SetWidth (naturalWidth img * ratio);
        SetHeight (naturalHeight img * ratio);
        SetStyleWidth style_width; SetStyleHeight style_height;
        SetTransform ratio 0 0 ratio 0 0;
        ClearRect 0 0 (trunc (naturalWidth img * ratio))
          (trunc (naturalHeight img * ratio));
        DrawImage (src img) 0 0 (naturalWidth img) (naturalHeight img)]
       ++ after)%list
    /\ images after = []
    /\ resets after = []
    /\ rectangles after = rectangles calls
    /\ labels after = labels calls
    /\ markers after = markers calls.
Proof.
  intros ratio calls. subst ratio calls. unfold Mui.render.
  eexists _, _, (Mui.forEach mode 0 faces).
  split; [reflexivity|]. split; [|split].
  - apply (mui_forEach_views mode faces 0).
  - apply mui_forEach_no_reset.
  - rewrite RenderProps.rectangles_app, RenderProps.labels_app, markers_app.
    repeat split.
Qed.

End RenderMoreProps.

Module ClassicRenderProps.
Import Canvas Client Views.

Lemma classic_face_views (index : nat) (face : Face) :
  match faceRectangle face with
  | Some rect =>
      snd (Classic.draw_face index face) = JS.Normal tt
      /\ rectangles (fst (Classic.draw_face index face))
         = [(left rect, top rect, rect_width rect, rect_height rect)]
      /\ labels (fst (Classic.draw_face index face)) = [face_label index]
      /\ markers (fst (Classic.draw_face index face)) = face_markers face
  | None =>
      (exists e, snd (Classic.draw_face index face) = JS.Throw e)
      /\ rectangles (fst (Classic.draw_face index face)) = []
      /\ labels (fst (Classic.draw_face index face)) = []
      /\ markers (fst (Classic.draw_face index face)) = []
  end
  /\ images (fst (Classic.draw_face index face)) = [].
Proof.
  unfold Classic.draw_face, face_markers.
  destruct (faceRectangle face) as [rect|]; cbn [fst snd].
  - destruct (faceLandmarks face) as [lm|]; RenderMoreProps.views;
      unfold landmark_markers; rewrite ?app_nil_r; auto.
  - cbn. eauto 6.
Qed.

Lemma classic_forEach_views (faces : list Face) (index : nat) :
  rectangles (fst (Classic.forEach index faces)) = omap reported (leading faces)
  /\ labels (fst (Classic.forEach index faces))
     = face_label <$> seq index (length (leading faces))
  /\ markers (fst (Classic.forEach index faces))
     = concat (face_markers <$> leading faces)
  /\ images (fst (Classic.forEach index faces)) = []
  /\ (leading faces = faces -> snd (Classic.forEach index faces) = JS.Normal tt)
  /\ (leading faces <> faces ->
      exists e, snd (Classic.forEach index faces) = JS.Throw e).
Proof.
  revert index. induction faces as [|face faces IH]; intros index.
  - cbn. repeat split; auto. intros []. reflexivity.
  - pose proof (classic_face_views index face) as [Hface Himg].
    destruct (IH (S index)) as (Hr & Hl & Hm & Hi & Hok & Hko).
    cbn [Classic.forEach leading].
    destruct (faceRectangle face) as [rect|] eqn:Hrect.
    + destruct Hface as (Hn & Hfr & Hfl & Hfm).
      destruct (Classic.draw_face index face) as [calls outcome].
      cbn [fst snd] in *. subst outcome.
      destruct (Classic.forEach (S index) faces) as [more outcome'].
      cbn [fst snd] in *.
      rewrite RenderProps.rectangles_app, RenderProps.labels_app,
        RenderProps.images_app, RenderMoreProps.markers_app.
      rewrite Hfr, Hfl, Hfm, Himg, Hr, Hl, Hm, Hi.
      repeat split.
      * cbn [omap list_omap app]. unfold reported. rewrite Hrect. reflexivity.
      * intros [= H]. auto.
      * intros H. apply Hko. congruence.
    + destruct Hface as ([e He] & Hfr & Hfl & Hfm).
      destruct (Classic.draw_face index face) as [calls outcome].
      cbn [fst snd] in *. subst outcome. cbn [fst snd].
      rewrite Hfr, Hfl, Hfm, Himg.
      repeat split; [discriminate | eauto].
Qed.

(** X14: the plain client's [drawFaceBoxes] draws the records in order up
    to the first one without a rectangle, where it throws: the records
    before it get their rectangle, label and markers, that record and all
    later ones get nothing. With a rectangle in every record it completes. *)
Theorem plain_render_stops_at_rectless (img : Img) (faces : list Face) :
  let drawn := Classic.drawFaceBoxes (Some img) true faces in
  rectangles (fst drawn) = omap reported (leading faces)
  /\ labels (fst drawn) = face_label <$> seq 0 (length (leading faces))
  /\ markers (fst drawn) = concat (face_markers <$> leading faces)
  /\ (leading faces = faces -> snd drawn = JS.Normal tt)
  /\ (leading faces <> faces -> exists e, snd drawn = JS.Throw e).
Proof.
  cbn zeta. unfold Classic.drawFaceBoxes. cbn [negb orb].
  destruct faces as [|face faces].
  - cbn. repeat split; auto. intros []. reflexivity.
  - cbn [length Nat.eqb].
    destruct (classic_forEach_views (face :: faces) 0) as (Hr & Hl & Hm & _ & Hok & Hko).
    destruct (Classic.forEach 0 (face :: faces)) as [calls outcome].
    cbn [fst snd rectangles labels markers] in *. auto 6.
Qed.

Lemma plain_render_stops_at_rectless_witness :
  rectangles (fst (Classic.drawFaceBoxes (Some Samples.preview) true
                     [Samples.face_at_10_20; MoreSamples.rectless_face;
                      MoreSamples.landmarked_face]))
  = [(10, 20, 100, 120)%Q]
  /\ exists e,
       snd (Classic.drawFaceBoxes (Some Samples.preview) true
              [Samples.face_at_10_20; MoreSamples.rectless_face;
               MoreSamples.landmarked_face]) = JS.Throw e.
Proof.
  destruct (plain_render_stops_at_rectless Samples.preview
              [Samples.face_at_10_20; MoreSamples.rectless_face;
               MoreSamples.landmarked_face]) as (Hr & _ & _ & _ & Hko).
  split; [rewrite Hr; reflexivity|]. apply Hko. discriminate.
Defined.

(** X15: when there is at least one record, [drawFaceBoxes] sizes the canvas
    to the image, paints the image exactly once and only then draws the
    overlays. *)
Theorem plain_image_under_overlays (img : Img) (face : Face) (faces : list Face) :
  exists after,
    fst (Classic.drawFaceBoxes (Some img) true (face :: faces))
    = SetWidth (img_width img) :: SetHeight (img_height img)
      :: DrawImage (src img) 0 0 (img_width img) (img_height img) :: after
    /\ images after = [].
Proof.
  unfold Classic.drawFaceBoxes. cbn [negb orb length Nat.eqb].
  destruct (classic_forEach_views (face :: faces) 0) as (_ & _ & _ & Hi & _).
  destruct (Classic.forEach 0 (face :: faces)) as [calls outcome].
  exists calls. split; [reflexivity|exact Hi].
Qed.

End ClassicRenderProps.

(* ===================================================================== *)
(** ** Composition of the client transitions                             *)
(* ===================================================================== *)

Module CameraInvariants.
Import Client.

(** X18: pressing Stop twice is the same as pressing it once, in both
    clients. *)
Theorem stop_is_idempotent (toDataURL : Bitmap.Canvas2D -> string) (app : App) :
  Classic.step toDataURL (Classic.step toDataURL app ClickStop) ClickStop
  = Classic.step toDataURL app ClickStop
  /\ Mui.step toDataURL (Mui.step toDataURL app ClickStop) ClickStop
     = Mui.step toDataURL app ClickStop.
Proof.
  destruct app as [[url preview fs busy err active stream] b m].
  destruct m; [|split; reflexivity].
  destruct stream as [st|]; destruct active; split; reflexivity.
Qed.

(** X19: whatever the outcome of a detection request, its completion clears
    the busy flag; a failure also empties the results and always leaves a
    non-empty message to show, which is the server's error text whenever
    that is present and non-empty. In both clients. *)
Theorem failure_always_shows_a_message (origin : Origin)
  (result : DetectResult) (s : State) :
  let plain := Classic.on_detect_done origin result s in
  let mui := Mui.apiPostDetect_end result s in
  loading plain = false /\ loading mui = false
  /\ (forall server_error err_message,
        result = Failed server_error err_message ->
        faces plain = [] /\ faces mui = []
        /\ (exists text, text <> "" /\ error plain = Some text
                         /\ Classic.notice plain = Some text)
        /\ (exists text, text <> "" /\ error mui = Some text
                         /\ Mui.status_line mui = text)
        /\ (forall e, server_error = Some e -> e <> "" ->
              error plain = Some e /\ error mui = Some e)).
Proof.
  assert (Hdef : forall v fallback, fallback <> "" ->
                   Classic.or_default v fallback <> "").
  { intros v fallback Hf. unfold Classic.or_default.
    destruct v as [t|]; [|exact Hf].
    destruct (String.eqb_spec t ""); assumption. }
  assert (Hsome : forall e fallback, e <> "" ->
                    Classic.or_default (Some e) fallback = e).
  { intros e fallback He. unfold Classic.or_default.
    destruct (String.eqb_spec e ""); [contradiction|reflexivity]. }
  cbn zeta. split; [|split].
  - destruct result as [data|se em]; cbn; [destruct (length data =? 0)%nat|];
      reflexivity.
  - destruct result as [data|se em]; cbn; [destruct (length data =? 0)%nat|];
      reflexivity.
  - intros se em ->. cbn. split; [reflexivity|]. split; [reflexivity|].
    assert (H1 : Classic.or_default se "Failed to detect faces" <> "")
      by (apply Hdef; discriminate).
    assert (H2 : Classic.or_default se
                   (Classic.or_default (Some em) "Detection failed") <> "")
      by (apply Hdef, Hdef; discriminate).
    split; [|split].
    + eexists. split; [exact H1|]. split; [reflexivity|].
      unfold Classic.notice. cbn.
      destruct (String.eqb_spec (Classic.or_default se "Failed to detect faces") "");
        [contradiction|reflexivity].
    + eexists. split; [exact H2|]. split; [reflexivity|].
      unfold Mui.status_line. cbn. apply Hsome. exact H2.
    + intros e -> He. rewrite !Hsome by assumption. auto.
Qed.

End CameraInvariants.

Module ClientMoreExamples.
Import Client.

Lemma failure_always_shows_a_message_witness :
  Classic.notice (Classic.on_detect_done FromFile
                    (Failed (Some "Image too small or corrupted.")
                            "Request failed with status code 400")
                    initial_state)
  = Some "Image too small or corrupted.".
Proof.
  destruct (CameraInvariants.failure_always_shows_a_message FromFile
              (Failed (Some "Image too small or corrupted.")
                      "Request failed with status code 400") initial_state)
    as (_ & _ & H).
  destruct (H _ _ eq_refl) as (_ & _ & (text & _ & Herr & Hnote) & _ & Hsame).
  destruct (Hsame _ eq_refl) as [He _]; [discriminate|].
  rewrite Hnote. rewrite <- Herr. exact He.
Defined.

End ClientMoreExamples.

(* ===================================================================== *)
(** ** The dominant emotion                                              *)
(* ===================================================================== *)

Module EmotionProps.
Import Emotion.

Lemma pick_fold (rest before later : list (string * Q)) (best : string * Q) :
  (forall e, In e before -> (snd e < snd best)%Q) ->
  (forall e, In e later -> (snd e <= snd best)%Q) ->
  exists before' later',
    (before ++ best :: later ++ rest = before' ++ fold_left pick rest best :: later')%list
    /\ (forall e, In e before' -> (snd e < snd (fold_left pick rest best))%Q)
    /\ (forall e, In e later' -> (snd e <= snd (fold_left pick rest best))%Q).
Proof.
  revert before later best.
  induction rest as [|x rest IH]; intros before later best Hb Hl.
  - exists before, later. rewrite app_nil_r. auto.
  - cbn [fold_left].
    destruct (Qle_bool (snd x) (snd best)) eqn:Hx.
    + assert (Hp : pick best x = best) by (unfold pick; rewrite Hx; reflexivity).
      rewrite Hp. apply Qle_bool_iff in Hx.
      destruct (IH before (later ++ [x])%list best Hb) as (b' & l' & Heq & Hb' & Hl').
      { intros e He. apply in_app_or in He as [He|[<-|[]]]; auto. }
      exists b', l'. split; [|auto].
      rewrite <- Heq, <- app_assoc. reflexivity.
    + assert (Hp : pick best x = x) by (unfold pick; rewrite Hx; reflexivity).
      rewrite Hp.
      assert (Hlt : (snd best < snd x)%Q).
      { apply Qnot_le_lt. intros Hle. apply Qle_bool_iff in Hle. congruence. }
      destruct (IH (before ++ best :: later)%list [] x) as (b' & l' & Heq & Hb' & Hl').
      { intros e He. apply in_app_or in He as [He|[<-|He]].
        - eapply Qlt_trans; [apply Hb, He | exact Hlt].
        - exact Hlt.
        - eapply Qle_lt_trans; [apply Hl, He | exact Hlt]. }
      { intros e []. }
      exists b', l'. split; [|auto].
      rewrite <- Heq, <- app_assoc. reflexivity.
Qed.

(** X20: [getEmotionText] answers "N/A" without an emotions object, throws
    on an empty one, and otherwise reports the first entry, in the object's
    order, whose score is the largest: every earlier entry scores strictly
    less and no later entry scores more. *)
Theorem dominant_is_first_maximum (percent : Q -> string)
  (entries : list (string * Q)) :
  getEmotionText percent None = JS.Normal "N/A"
  /\ (entries = [] -> exists e, getEmotionText percent (Some entries) = JS.Throw e)
  /\ (entries <> [] ->
      exists before best later,
        entries = (before ++ best :: later)%list
        /\ (forall e, In e before -> (snd e < snd best)%Q)
        /\ (forall e, In e later -> (snd e <= snd best)%Q)
        /\ getEmotionText percent (Some entries)
           = JS.Normal (fst best +:+ " (" +:+ percent (snd best * 100)%Q +:+ "%)")).
Proof.
  split; [reflexivity|]. split.
  - intros ->. cbn. eauto.
  - intros Hne. destruct entries as [|first rest]; [congruence|].
    destruct (pick_fold rest [] [] first) as (b' & l' & Heq & Hb' & Hl');
      [intros e []|intros e []|].
    exists b', (fold_left pick rest first), l'.
    split; [exact Heq|]. split; [exact Hb'|]. split; [exact Hl'|]. reflexivity.
Qed.

Lemma dominant_is_first_maximum_witness :
  getEmotionText (fun _ => "70.0") (Some MoreSamples.emotions)
  = JS.Normal "happiness (70.0%)".
Proof.
  destruct (dominant_is_first_maximum (fun _ => "70.0") MoreSamples.emotions)
    as (_ & _ & H).
  destruct H as (before & best & later & Heq & _ & _ & Htext); [discriminate|].
  reflexivity.
Defined.

End EmotionProps.

(* ===================================================================== *)
(** ** Edge cases of startup and capture                                 *)
(* ===================================================================== *)

Module EdgeProps.
Import JS Server.

(** X21: the process exits with code 1 as soon as the endpoint or the
    credential is absent or empty; with both present and non-empty it
    listens with exactly these two values, on the port named by [PORT] when
    that is set and non-empty and on 3001 otherwise. *)
Theorem startup_outcomes (env : Env) :
  ((env !! "AZURE_FACE_ENDPOINT" = None \/ env !! "AZURE_FACE_ENDPOINT" = Some ""
    \/ env !! "AZURE_FACE_KEY" = None \/ env !! "AZURE_FACE_KEY" = Some "") ->
   startup env = Exited 1)
  /\ (forall e k,
        env !! "AZURE_FACE_ENDPOINT" = Some e -> e <> "" ->
        env !! "AZURE_FACE_KEY" = Some k -> k <> "" ->
        startup env
        = Listening (match env !! "PORT" with
                     | Some p => if String.eqb p "" then JNum 3001 else JStr p
                     | None => JNum 3001
                     end)
                    {| AZURE_ENDPOINT := e; AZURE_KEY := k |}).
Proof.
  unfold startup, env_value, or_else. split.
  - intros [H|[H|[H|H]]]; rewrite H; cbn; try reflexivity;
      destruct (env !! "AZURE_FACE_ENDPOINT") as [e|]; cbn; try reflexivity;
      destruct (negb (negb (String.eqb e ""))); reflexivity.
  - intros e k -> He -> Hk. cbn.
    destruct (String.eqb_spec e ""); [contradiction|].
    destruct (String.eqb_spec k ""); [contradiction|]. cbn.
    destruct (env !! "PORT") as [p|]; cbn; [|reflexivity].
    destruct (String.eqb p ""); reflexivity.
Qed.

Lemma startup_outcomes_witness :
  startup Samples.full_env
  = Listening (JNum 3001)
      {| AZURE_ENDPOINT := "https://vision.cognitiveservices.azure.com/";
         AZURE_KEY := "0123456789abcdef" |}.
Proof.
  destruct (startup_outcomes Samples.full_env) as [_ H].
  apply (H "https://vision.cognitiveservices.azure.com/" "0123456789abcdef");
    (reflexivity || discriminate).
Defined.

(** X22: a capture taken while the video has no frame yet (it reports a
    size of 0 by 0) gives, in the MUI client, a fully transparent canvas of
    1280 by 720, and in the plain client a canvas of 0 by 0. *)
Theorem capture_without_frame (video : Bitmap.Frame) (canvas : Bitmap.Canvas2D) :
  Bitmap.videoWidth video = 0%Z -> Bitmap.videoHeight video = 0%Z ->
  Bitmap.width (Mui.capture_frame video canvas) = 1280%Z
  /\ Bitmap.height (Mui.capture_frame video canvas) = 720%Z
  /\ (forall X Y,
        Bitmap.pixel (Mui.capture_frame video canvas) X Y = Bitmap.transparent)
  /\ Bitmap.width (Classic.capture_frame video canvas) = 0%Z
  /\ Bitmap.height (Classic.capture_frame video canvas) = 0%Z.
Proof.
  intros Hw Hh. unfold Mui.capture_frame, Classic.capture_frame.
  rewrite Hw, Hh. cbn. repeat split.
  intros X Y. rewrite Hw.
  destruct (0 <=? _)%Z eqn:H0; [|reflexivity].
  destruct (_ <? 0)%Z eqn:H1; [|reflexivity].
  apply Z.leb_le in H0. apply Z.ltb_lt in H1. lia.
Qed.

Lemma capture_without_frame_witness :
  Bitmap.width (Mui.capture_frame
                  {| Bitmap.videoWidth := 0; Bitmap.videoHeight := 0;
                     Bitmap.at_xy := fun _ _ => 5%N |}
                  Samples.blank_canvas) = 1280%Z.
Proof.
  apply (capture_without_frame
           {| Bitmap.videoWidth := 0; Bitmap.videoHeight := 0;
              Bitmap.at_xy := fun _ _ => 5%N |} Samples.blank_canvas);
    reflexivity.
Defined.

End EdgeProps.

(* ===================================================================== *)
(** ** When a result reaches the canvas                                  *)
(* ===================================================================== *)

Module PaintingProps.
Import Canvas Client View.

(** Runs the machine on a concrete script of inputs over a non-empty
    preview text. *)
Ltac play Hne :=
  cbn; unfold commit, preview_src; cbn;
  repeat (first
            [ rewrite String.eqb_refl
            | match goal with
              | |- context [String.eqb ?d ""] =>
                  destruct (String.eqb_spec d ""); [contradiction Hne|]
              end ]; cbn).

Section Plain.

Variable toDataURL : Bitmap.Canvas2D -> string.

(** C3: the plain client runs its render step only when the preview image
    fires its load event. A detection result of N face records that arrives
    after the image has loaded is stored, but the render step does not run
    for it: the canvas shows no rectangle and no label, whatever N is. *)
Theorem plain_client_misses_late_result (b : Browser) (data : string)
  (w h : Q) (records : list Face) :
  data <> "" ->
  let final :=
    plain_run toDataURL (fresh b)
      [Do (UploadFile (Some data)); ImageLoaded w h;
       Do (DetectDone FromFile (Detected records))] in
  imagePreview (ui (app final)) = Some data
  /\ faces (ui (app final)) = records
  /\ element final = Some (loaded data w h)
  /\ shown final = []
  /\ rectangles (shown final) = []
  /\ labels (shown final) = [].
Proof.
  intros Hne final. subst final.
  destruct records as [|face records]; play Hne; auto 10.
Qed.

(** When the result is there before the image has loaded, the load event
    renders it. *)
Lemma plain_client_renders_early_result (b : Browser) (data : string)
  (w h : Q) (records : list Face) :
  data <> "" ->
  let final :=
    plain_run toDataURL (fresh b)
      [Do (UploadFile (Some data));
       Do (DetectDone FromFile (Detected records)); ImageLoaded w h] in
  shown final
  = fst (Classic.drawFaceBoxes (Some (loaded data w h)) true records).
Proof.
  intros Hne final. subst final.
  destruct records as [|face records]; play Hne; [reflexivity|].
  destruct (Classic.draw_face 0 face) as [calls [[]|e]]; cbn;
    [destruct (Classic.forEach 1 records)|]; reflexivity.
Qed.

End Plain.

Section Mui.

Variable toDataURL : Bitmap.Canvas2D -> string.
Variable devicePixelRatio innerWidth : Q.
Variable mode : string.

(** The MUI client renders the late result: its drawing effect follows
    [faces]. *)
Lemma mui_client_renders_late_result (b : Browser) (data : string)
  (w h : Q) (records : list Face) :
  data <> "" -> Qeq_bool w 0 = false ->
  let final :=
    mui_run toDataURL devicePixelRatio innerWidth mode (fresh b)
      [Do (UploadFile (Some data)); ImageLoaded w h;
       Do (DetectDone FromFile (Detected records))] in
  faces (ui (app final)) = records
  /\ shown final
     = Mui.render devicePixelRatio innerWidth mode (loaded data w h) records.
Proof.
  intros Hne Hw final. subst final.
  destruct records as [|face records]; play Hne; unfold effect; play Hne;
    rewrite ?Hw; cbn; auto.
Qed.

End Mui.

Lemma plain_client_misses_late_result_witness :
  let final :=
    plain_run Samples.size_only (fresh Samples.idle_browser)
      [Do (UploadFile (Some "data:image/png;base64,iVBORw0KGgo="));
       ImageLoaded 640 480;
       Do (DetectDone FromFile (Detected [Samples.face_at_10_20]))] in
  faces (ui (app final)) = [Samples.face_at_10_20]
  /\ rectangles (shown final) = []
  /\ labels (shown final) = [].
Proof.
  destruct (plain_client_misses_late_result Samples.size_only
              Samples.idle_browser "data:image/png;base64,iVBORw0KGgo="
              640 480 [Samples.face_at_10_20])
    as (_ & Hfaces & _ & _ & Hrect & Hlab); [discriminate|].
  split; [exact Hfaces | split; [exact Hrect | exact Hlab]].
Defined.


End PaintingProps.

(* ===================================================================== *)
Module CaptureExamples.
Import Client.

(** C9 as stated fails in the MUI client: a capture taken while the video
    reports a size of 0 by 0 yields a bitmap of 1280 by 720, not one of the
    video's own size, and that bitmap becomes the preview. *)
Lemma capture_takes_fallback_size :
  let shot := Mui.capture_frame MoreSamples.no_frame Samples.blank_canvas in
  Bitmap.videoWidth MoreSamples.no_frame = 0%Z
  /\ Bitmap.videoHeight MoreSamples.no_frame = 0%Z
  /\ Bitmap.width shot = 1280%Z
  /\ Bitmap.height shot = 720%Z
  /\ Bitmap.width shot <> Bitmap.videoWidth MoreSamples.no_frame
  /\ imagePreview
       (fst (Mui.capturePhoto Samples.size_only initial_state
               (Some MoreSamples.no_frame)
               (initial_state, Samples.idle_browser)))
     = Some (Samples.size_only shot).
Proof.
  cbn. repeat split. discriminate.
Qed.

End CaptureExamples.
